(** * GitHub CLI: cache store, error normaliser, response validator and
      data service

    A shallow embedding of [src/cacheManager.ts], [src/apiClient.ts] and the
    data service ([DataService]) of the GitHub command line client, with the
    properties of its specification stated over the embedding.

    Conventions.
    - A decoded JSON value is a [JValue].  An object carries its properties
      in own-property order (what [Object.keys] and [JSON.stringify]
      enumerate); for names that are not array indices that is the order in
      which the properties were created.
    - A JS number is a [Num]: an integer (within the safe-integer range,
      where [ToString] is plain decimal) or [NaN].
    - A string is a [string] of bytes (the UTF-8 text).
    - The in-memory cache object is a finite map from keys to entries.
    - Effects (clock, console, file writes, HTTP requests, exceptions) live
      in the monad [M] over a [World]. *)

From Stdlib Require Import ZArith String Ascii List Bool Lia.
From stdpp Require Import gmap strings list fin_maps pretty.

Set Warnings "-register-all".

Local Open Scope string_scope.

(** ** JavaScript values *)

Inductive Num : Type :=
| NaN
| Int (z : Z).

Inductive JValue : Type :=
| JUndefined
| JNull
| JBool (b : bool)
| JNum (n : Num)
| JStr (s : string)
| JArr (items : list JValue)
| JObj (props : list (string * JValue)).

(** [Record<string, any>]: the own properties, in enumeration order. *)
Abbreviation Params := (list (string * JValue)).

(** ToBoolean. *)
Definition truthy (v : JValue) : bool :=
  match v with
  | JUndefined | JNull => false
  | JBool b => b
  | JNum NaN => false
  | JNum (Int z) => negb (Z.eqb z 0)
  | JStr s => negb (String.eqb s "")
  | JArr _ | JObj _ => true
  end.

(** [typeof v === 'object'] *)
Definition typeof_object (v : JValue) : bool :=
  match v with
  | JNull | JArr _ | JObj _ => true
  | _ => false
  end.

(** [Array.isArray] *)
Definition isArray (v : JValue) : bool :=
  match v with
  | JArr _ => true
  | _ => false
  end.

(** ** JSON.stringify (no replacer, no indentation) *)

Definition dquote : ascii := "034"%char.

Definition hex_digit (n : N) : ascii :=
  match n with
  | 0%N => "0" | 1%N => "1" | 2%N => "2" | 3%N => "3" | 4%N => "4"
  | 5%N => "5" | 6%N => "6" | 7%N => "7" | 8%N => "8" | 9%N => "9"
  | 10%N => "a" | 11%N => "b" | 12%N => "c" | 13%N => "d" | 14%N => "e"
  | _ => "f"
  end%char.

(** One code unit of QuoteJSONString. *)
Definition escape_char (c : ascii) : string :=
  if Ascii.eqb c dquote then String "\" (String dquote "")
  else if Ascii.eqb c "\" then "\\"
  else if Ascii.eqb c "008" then "\b"
  else if Ascii.eqb c "012" then "\f"
  else if Ascii.eqb c "010" then "\n"
  else if Ascii.eqb c "013" then "\r"
  else if Ascii.eqb c "009" then "\t"
  else if (N_of_ascii c <? 32)%N then
    "\u00" +:+ String (hex_digit (N_of_ascii c / 16)) (String (hex_digit (N_of_ascii c mod 16)) "")
  else String c "".

Fixpoint escape (s : string) : string :=
  match s with
  | EmptyString => ""
  | String c s' => escape_char c +:+ escape s'
  end.

Definition quoteJSONString (s : string) : string :=
  String dquote (escape s +:+ String dquote "").

Fixpoint join (sep : string) (l : list string) : string :=
  match l with
  | [] => ""
  | [x] => x
  | x :: l' => x +:+ sep +:+ join sep l'
  end.

(** SerializeJSONProperty: [None] is the JS [undefined] that makes an object
    drop the property and an array print [null]. *)
Fixpoint serialize (v : JValue) : option string :=
  match v with
  | JUndefined => None
  | JNull => Some "null"
  | JBool true => Some "true"
  | JBool false => Some "false"
  | JNum NaN => Some "null"
  | JNum (Int z) => Some (pretty z)
  | JStr s => Some (quoteJSONString s)
  | JArr items =>
      Some ("[" +:+ join "," (List.map (fun x => default "null" (serialize x)) items) +:+ "]")
  | JObj props =>
      let member (p : string * JValue) : list string :=
        match serialize (snd p) with
        | Some s => [quoteJSONString (fst p) +:+ ":" +:+ s]
        | None => []
        end in
      Some ("{" +:+ join "," (List.concat (List.map member props)) +:+ "}")
  end.

(** [JSON.stringify(params)] for a params object. *)
Definition JSON_stringify (params : Params) : string :=
  default "" (serialize (JObj params)).

(** ** types.ts *)

Record CacheEntry : Type := {
  data : JValue;
  timestamp : Z
}.

(** [interface Cache { [key: string]: CacheEntry<any> }].  Every key the
    manager uses contains a colon, so a lookup never reaches a property of
    [Object.prototype]. *)
Abbreviation Cache := (gmap string CacheEntry).

Module APIError.
(** [interface APIError extends Error]: an absent optional field is
    [None]. *)
Record t : Type := {
  message : string;
  statusCode : option Z;
  response : option JValue
}.

(** [new Error(msg)] *)
Definition Error (msg : string) : t :=
  {| message := msg; statusCode := None; response := None |}.
End APIError.

Module AxiosError.
Record Response : Type := {
  status : Z;
  data : JValue
}.

(** The fields of axios's error object that the client reads. *)
Record t : Type := {
  code : option string;
  message : string;
  response : option Response
}.
End AxiosError.

Module GitHubRepository.
Record Owner : Type := {
  login : string;
  owner_id : Z;
  avatar_url : string;
  type : string
}.

Record License : Type := {
  key : string;
  license_name : string;
  spdx_id : string;
  url : string
}.

(** [interface GitHubRepository]; [string | null] and an optional field
    are options. *)
Record t : Type := {
  id : Z;
  name : string;
  full_name : string;
  owner : Owner;
  description : option string;
  html_url : string;
  stargazers_count : Num;
  watchers_count : Num;
  forks_count : Num;
  open_issues_count : Num;
  language : option string;
  created_at : string;
  updated_at : string;
  pushed_at : string;
  size : Num;
  default_branch : string;
  topics : option (list string);
  visibility : string;
  archived : bool;
  disabled : bool;
  license : option License
}.
End GitHubRepository.

Module FilterOptions.
(** [interface FilterOptions]: every criterion is optional. *)
Record t : Type := {
  language : option string;
  minStars : option Num;
  maxStars : option Num;
  archived : option bool
}.
End FilterOptions.

(** ** The host: what the program takes from its runtime and from the
    network *)

Record Host : Type := {
  (** [String.prototype.toLowerCase] *)
  toLowerCase : string -> string;
  (** the property names a value finds on its prototype chain *)
  inherited : JValue -> string -> bool;
  (** the remote end: for a request issued at a given time, the failure or
      the decoded body that axios delivers, and the milliseconds it took *)
  remote : string -> option Params -> Z -> (AxiosError.t + JValue) * Z
}.

(** ** Effects *)

Inductive Event : Type :=
| ConsoleLog (msg : string)
| ConsoleWarn (msg : string)
| ConsoleError (msg : string)
| WriteFile (path : string) (content : Cache)
| HttpGet (url : string) (params : option Params).

(** The state a call runs in.  [now] is what [Date.now()] reads: it stands
    still while synchronous code runs and moves while a request is awaited.
    [trace] lists the effects so far, newest first; [WriteFile] stands for
    [fs.writeFileSync] of the serialised cache, and [disk_ok] tells whether
    that write succeeds. *)
Record World : Type := {
  now : Z;
  cache : Cache;
  cacheFile : string;
  cacheDuration : Z;
  disk_ok : bool;
  trace : list Event
}.

Inductive Outcome (A : Type) : Type :=
| Return (a : A)
| Throw (e : APIError.t).
Arguments Return {A} a.
Arguments Throw {A} e.

Definition M (A : Type) : Type := World -> Outcome A * World.

Definition ret {A : Type} (a : A) : M A := fun w => (Return a, w).

Definition bind {A B : Type} (m : M A) (f : A -> M B) : M B := fun w =>
  match m w with
  | (Return a, w') => f a w'
  | (Throw e, w') => (Throw e, w')
  end.

Notation "'let*' x ':=' m 'in' k" := (bind m (fun x => k))
  (at level 10, x name, m at level 100, k at level 200).
Notation "m '>>' k" := (bind m (fun _ => k))
  (at level 90, right associativity).

Definition throw {A : Type} (e : APIError.t) : M A := fun w => (Throw e, w).

(** [try { body } catch (error) { handler(error) }] *)
Definition try_catch {A : Type} (body : M A) (handler : APIError.t -> M A) : M A :=
  fun w =>
    match body w with
    | (Return a, w') => (Return a, w')
    | (Throw e, w') => handler e w'
    end.

Definition Date_now : M Z := fun w => (Return (now w), w).

Definition emit (e : Event) : M unit := fun w =>
  (Return tt,
   {| now := now w; cache := cache w; cacheFile := cacheFile w;
      cacheDuration := cacheDuration w; disk_ok := disk_ok w;
      trace := e :: trace w |}).

Definition with_cache (f : Cache -> Cache) : M unit := fun w =>
  (Return tt,
   {| now := now w; cache := f (cache w); cacheFile := cacheFile w;
      cacheDuration := cacheDuration w; disk_ok := disk_ok w;
      trace := trace w |}).

(** [this.cache[key]] *)
Definition cache_lookup (key : string) : M (option CacheEntry) := fun w =>
  (Return (cache w !! key), w).

(** [this.cache[key] = entry] *)
Definition cache_assign (key : string) (entry : CacheEntry) : M unit :=
  with_cache (fun c => <[key := entry]> c).

(** [delete this.cache[key]] *)
Definition cache_delete (key : string) : M unit :=
  with_cache (fun c => delete key c).

(** [this.cache = {}] *)
Definition cache_reset : M unit := with_cache (fun _ => ∅).

(** [Object.keys(this.cache)], in some enumeration order. *)
Definition Object_keys : M (list string) := fun w =>
  (Return ((map_to_list (cache w)).*1), w).

Definition this_cacheDuration : M Z := fun w => (Return (cacheDuration w), w).

(** Time passing while a promise is awaited. *)
Definition elapse (ms : Z) : M unit := fun w =>
  (Return tt,
   {| now := (now w + ms)%Z; cache := cache w; cacheFile := cacheFile w;
      cacheDuration := cacheDuration w; disk_ok := disk_ok w;
      trace := trace w |}).

(** ** Running a computation *)

Definition result {A : Type} (m : M A) (w : World) : Outcome A := fst (m w).
Definition after {A : Type} (m : M A) (w : World) : World := snd (m w).

(** ** cacheManager.ts *)

Module CacheManager.

(** What [fs] finds at the path of the cache file when the manager is
    built: no file, a file that cannot be read or parsed, or a file that
    parses to a cache object. *)
Inductive CacheFile : Type :=
| FileMissing
| FileUnreadable
| FileParsed (content : Cache).

(** [loadCache()]: never throws. *)
Definition loadCache (file : CacheFile) : M Cache :=
  match file with
  | FileParsed content => ret content
  | FileUnreadable =>
      emit (ConsoleWarn "Failed to load cache, starting with empty cache") >>
      ret ∅
  | FileMissing => ret ∅
  end.

(** [constructor(cacheFile = 'cache.json', cacheDuration = 300000)], run at
    time [t] on the resolved path of the file. *)
Definition constructor (file : CacheFile) (path : option string) (duration : option Z)
    (t : Z) (writable : bool) : World :=
  let blank :=
    {| now := t; cache := ∅; cacheFile := default "cache.json" path;
       cacheDuration := default 300000%Z duration; disk_ok := writable; trace := [] |} in
  after (let* loaded := loadCache file in with_cache (fun _ => loaded)) blank.

(** [saveCache()]: the write is attempted, a failure is reported on the
    console and swallowed. *)
Definition saveCache : M unit :=
  fun w =>
    let w' := snd (emit (WriteFile (cacheFile w) (cache w)) w) in
    if disk_ok w then (Return tt, w')
    else emit (ConsoleError "Failed to save cache:") w'.

(** [generateKey(endpoint, params?)]: an object is always truthy, so the
    conditional only separates a missing argument from a given one. *)
Definition generateKey (endpoint : string) (params : option Params) : string :=
  let paramsString :=
    match params with
    | Some p => JSON_stringify p
    | None => ""
    end in
  endpoint +:+ ":" +:+ paramsString.

(** [isValid(entry)] *)
Definition isValid (entry : CacheEntry) : M bool :=
  let* now := Date_now in
  let* cacheDuration := this_cacheDuration in
  ret (now - timestamp entry <? cacheDuration)%Z.

(** [get(endpoint, params?)]; the result [JNull] is the [null] of a
    miss. *)
Definition get (endpoint : string) (params : option Params) : M JValue :=
  let key := generateKey endpoint params in
  let* entry := cache_lookup key in
  match entry with
  | Some entry =>
      let* valid := isValid entry in
      if valid then
        emit (ConsoleLog ("[CACHE HIT] Using cached data for " +:+ endpoint)) >>
        ret (data entry)
      else ret JNull
  | None => ret JNull
  end.

(** [set(endpoint, data, params?)] *)
Definition set (endpoint : string) (data : JValue) (params : option Params) : M unit :=
  let key := generateKey endpoint params in
  let* now := Date_now in
  cache_assign key {| data := data; timestamp := now |} >>
  saveCache.

(** [clear()] *)
Definition clear : M unit :=
  cache_reset >>
  saveCache >>
  emit (ConsoleLog "Cache cleared successfully").

(** Reading [.timestamp] of a missing entry. *)
Definition TypeError_undefined : APIError.t :=
  APIError.Error "Cannot read properties of undefined (reading 'timestamp')".

(** The body of [keys.forEach(key => ...)] in [cleanup], threading
    [removedCount]. *)
Fixpoint cleanup_forEach (keys : list string) (removedCount : Z) : M Z :=
  match keys with
  | [] => ret removedCount
  | key :: keys' =>
      let* entry := cache_lookup key in
      match entry with
      | Some entry =>
          let* valid := isValid entry in
          if negb valid then
            cache_delete key >>
            cleanup_forEach keys' (removedCount + 1)%Z
          else cleanup_forEach keys' removedCount
      | None => throw TypeError_undefined
      end
  end.

(** [cleanup()] *)
Definition cleanup : M unit :=
  let* keys := Object_keys in
  let* removedCount := cleanup_forEach keys 0%Z in
  if (0 <? removedCount)%Z then
    saveCache >>
    emit (ConsoleLog ("Removed " +:+ pretty removedCount +:+ " expired cache entries"))
  else ret tt.

(** [keys.filter(key => this.isValid(this.cache[key]))] *)
Fixpoint filter_valid (keys : list string) : M (list string) :=
  match keys with
  | [] => ret []
  | key :: keys' =>
      let* entry := cache_lookup key in
      match entry with
      | Some entry =>
          let* valid := isValid entry in
          let* rest := filter_valid keys' in
          ret (if valid then key :: rest else rest)
      | None => throw TypeError_undefined
      end
  end.

Record Stats : Type := {
  totalEntries : Z;
  validEntries : Z;
  expiredEntries : Z
}.

(** [getStats()] *)
Definition getStats : M Stats :=
  let* keys := Object_keys in
  let* valid := filter_valid keys in
  let validEntries := Z.of_nat (length valid) in
  ret {| totalEntries := Z.of_nat (length keys);
          validEntries := validEntries;
          expiredEntries := Z.of_nat (length keys) - validEntries |}.

End CacheManager.

(** ** apiClient.ts *)

(** [a >= b] and [a <= b] on numbers: false as soon as one side is NaN. *)
Definition js_ge (a b : Num) : bool :=
  match a, b with
  | Int x, Int y => (y <=? x)%Z
  | _, _ => false
  end.

Definition js_le (a b : Num) : bool :=
  match a, b with
  | Int x, Int y => (x <=? y)%Z
  | _, _ => false
  end.

(** [s.includes(sub)] *)
Fixpoint includes (s sub : string) : bool :=
  String.prefix sub s ||
  match s with
  | EmptyString => false
  | String _ s' => includes s' sub
  end.

(** [error.code === c] *)
Definition code_is (code : option string) (c : string) : bool :=
  match code with
  | Some c' => String.eqb c' c
  | None => false
  end.

(** An own property of a decoded value: a member of an object; an index or
    [length] of an array. *)
Definition has_own (field : string) (data : JValue) : bool :=
  match data with
  | JObj props => existsb (String.eqb field) (props.*1)
  | JArr items =>
      String.eqb field "length" ||
      existsb (fun i : nat => String.eqb field (pretty i)) (seq 0 (length items))
  | _ => false
  end.

(** [data.name] for a member of a decoded object ([undefined] when it has no
    such member). *)
Definition member (data : JValue) (name : string) : JValue :=
  match data with
  | JObj props =>
      match List.find (fun p => String.eqb (fst p) name) props with
      | Some p => snd p
      | None => JUndefined
      end
  | _ => JUndefined
  end.

Module GitHubAPIClient.
Section Client.
Variable h : Host.

Definition baseURL : string := "https://api.github.com".
Definition timeout : Z := 10000.

(** [field in data], which the validator evaluates on objects and arrays
    only. *)
Definition in_operator (field : string) (data : JValue) : bool :=
  has_own field data || inherited h data field.

Definition with_message (e : APIError.t) (msg : string) : APIError.t :=
  {| APIError.message := msg;
     APIError.statusCode := APIError.statusCode e;
     APIError.response := APIError.response e |}.

(** [handleError(error): never] *)
Definition handleError (error : AxiosError.t) : M Empty_set :=
  let apiError := APIError.Error "" in
  if code_is (AxiosError.code error) "ECONNABORTED" then
    throw (with_message apiError
             ("Request timeout: The request took longer than " +:+ pretty timeout +:+ "ms"))
  else if code_is (AxiosError.code error) "ENOTFOUND"
          || code_is (AxiosError.code error) "EAI_AGAIN" then
    throw (with_message apiError
             "Network error: Unable to connect to GitHub API. Please check your internet connection.")
  else
    match AxiosError.response error with
    | None =>
        throw (with_message apiError ("Network error: " +:+ AxiosError.message error))
    | Some response =>
        let statusCode := AxiosError.status response in
        let apiError :=
          {| APIError.message := APIError.message apiError;
             APIError.statusCode := Some statusCode;
             APIError.response := Some (AxiosError.data response) |} in
        let message :=
          if (statusCode =? 400)%Z then
            "Bad Request: Invalid parameters provided"
          else if (statusCode =? 401)%Z then
            "Unauthorized: Invalid or missing authentication token"
          else if (statusCode =? 403)%Z then
            "Rate limit exceeded: GitHub API rate limit reached. Please try again later."
          else if (statusCode =? 404)%Z then
            "Not Found: The requested resource does not exist"
          else if (statusCode =? 422)%Z then
            "Validation Failed: The request contains invalid fields"
          else if (statusCode =? 500)%Z || (statusCode =? 502)%Z || (statusCode =? 503)%Z then
            "Server Error: GitHub API is currently unavailable"
          else
            "HTTP Error " +:+ pretty statusCode +:+ ": " +:+ AxiosError.message error in
        throw (with_message apiError message)
    end.

(** [this.axiosInstance.get(url, { params })] with the response
    interceptor installed by the constructor: a failure goes through
    [handleError]. *)
Definition axiosInstance_get (url : string) (params : option Params) : M JValue :=
  emit (HttpGet url params) >>
  let* sent := Date_now in
  let answer := remote h url params sent in
  elapse (snd answer) >>
  match fst answer with
  | inl error =>
      let* x := handleError error in
      match x return M JValue with end
  | inr data => ret data
  end.

(** The loop of [validateResponse]. *)
Fixpoint check_fields (data : JValue) (requiredFields : list string) : M unit :=
  match requiredFields with
  | [] => ret tt
  | field :: rest =>
      if negb (in_operator field data) then
        throw (APIError.Error ("Invalid response: Missing required field '" +:+ field +:+ "'"))
      else check_fields data rest
  end.

(** [validateResponse(data, requiredFields)] *)
Definition validateResponse (data : JValue) (requiredFields : list string) : M JValue :=
  if negb (truthy data) || negb (typeof_object data) then
    throw (APIError.Error "Invalid response: Expected object but received invalid data")
  else
    check_fields data requiredFields >>
    ret data.

(** [searchRepositories(query, sort, perPage)] *)
Definition searchRepositories (query sort : string) (perPage : Num) : M JValue :=
  try_catch
    (let* response_data :=
       axiosInstance_get "/search/repositories"
         (Some [("q", JStr query); ("sort", JStr sort);
                ("order", JStr "desc"); ("per_page", JNum perPage)]) in
     let* validatedData := validateResponse response_data ["items"; "total_count"] in
     if negb (isArray (member validatedData "items")) then
       throw (APIError.Error "Invalid response: items field is not an array")
     else ret (member validatedData "items"))
    (fun error =>
       if includes (APIError.message error) "Invalid response" then throw error
       else throw error).

(** [getRepository(owner, repo)] *)
Definition getRepository (owner repo : string) : M JValue :=
  try_catch
    (let* response_data :=
       axiosInstance_get ("/repos/" +:+ owner +:+ "/" +:+ repo) None in
     validateResponse response_data ["id"; "name"; "full_name"; "owner"])
    (fun error => throw error).

(** [getUser(username)] *)
Definition getUser (username : string) : M JValue :=
  try_catch
    (let* response_data := axiosInstance_get ("/users/" +:+ username) None in
     validateResponse response_data ["login"; "id"; "html_url"])
    (fun error => throw error).

(** [getUserRepositories(username, sort, perPage)] *)
Definition getUserRepositories (username sort : string) (perPage : Num) : M JValue :=
  try_catch
    (let* response_data :=
       axiosInstance_get ("/users/" +:+ username +:+ "/repos")
         (Some [("sort", JStr sort); ("per_page", JNum perPage)]) in
     if negb (isArray response_data) then
       throw (APIError.Error "Invalid response: Expected array of repositories")
     else ret response_data)
    (fun error => throw error).

End Client.
End GitHubAPIClient.

(** ** dataService.ts *)

Module DataService.
Section Service.
Variable h : Host.

(** [searchRepositories(query, sort, perPage)] *)
Definition searchRepositories (query sort : string) (perPage : Num) : M JValue :=
  let cacheKey := "search/repositories" in
  let params := [("q", JStr query); ("sort", JStr sort); ("per_page", JNum perPage)] in
  let* cached := CacheManager.get cacheKey (Some params) in
  if truthy cached then ret cached
  else
    let* data := GitHubAPIClient.searchRepositories h query sort perPage in
    CacheManager.set cacheKey data (Some params) >>
    ret data.

(** [getRepository(owner, repo)] *)
Definition getRepository (owner repo : string) : M JValue :=
  let cacheKey := "repos/" +:+ owner +:+ "/" +:+ repo in
  let* cached := CacheManager.get cacheKey None in
  if truthy cached then ret cached
  else
    let* data := GitHubAPIClient.getRepository h owner repo in
    CacheManager.set cacheKey data None >>
    ret data.

(** [getUser(username)] *)
Definition getUser (username : string) : M JValue :=
  let cacheKey := "users/" +:+ username in
  let* cached := CacheManager.get cacheKey None in
  if truthy cached then ret cached
  else
    let* data := GitHubAPIClient.getUser h username in
    CacheManager.set cacheKey data None >>
    ret data.

(** [getUserRepositories(username, sort, perPage)] *)
Definition getUserRepositories (username sort : string) (perPage : Num) : M JValue :=
  let cacheKey := "users/" +:+ username +:+ "/repos" in
  let params := [("sort", JStr sort); ("per_page", JNum perPage)] in
  let* cached := CacheManager.get cacheKey (Some params) in
  if truthy cached then ret cached
  else
    let* data := GitHubAPIClient.getUserRepositories h username sort perPage in
    CacheManager.set cacheKey data (Some params) >>
    ret data.

(** [s?.toLowerCase()]: [None] is [undefined]. *)
Definition optional_toLowerCase (s : option string) : option string :=
  toLowerCase h <$> s.

(** [a === b] on [string | undefined]. *)
Definition strict_eq (a b : option string) : bool :=
  match a, b with
  | Some x, Some y => String.eqb x y
  | None, None => true
  | _, _ => false
  end.

(** A string criterion is truthy when given and not empty. *)
Definition truthy_string (s : option string) : bool :=
  match s with
  | Some x => negb (String.eqb x "")
  | None => false
  end.

(** [filterRepositories(repositories, filters)] *)
Definition filterRepositories (repositories : list GitHubRepository.t)
    (filters : FilterOptions.t) : list GitHubRepository.t :=
  let filtered := repositories in
  let filtered :=
    if truthy_string (FilterOptions.language filters) then
      List.filter
        (fun repo =>
           strict_eq (optional_toLowerCase (GitHubRepository.language repo))
                     (optional_toLowerCase (FilterOptions.language filters)))
        filtered
    else filtered in
  let filtered :=
    match FilterOptions.minStars filters with
    | Some minStars =>
        List.filter (fun repo => js_ge (GitHubRepository.stargazers_count repo) minStars)
          filtered
    | None => filtered
    end in
  let filtered :=
    match FilterOptions.maxStars filters with
    | Some maxStars =>
        List.filter (fun repo => js_le (GitHubRepository.stargazers_count repo) maxStars)
          filtered
    | None => filtered
    end in
  let filtered :=
    match FilterOptions.archived filters with
    | Some archived =>
        List.filter (fun repo => Bool.eqb (GitHubRepository.archived repo) archived)
          filtered
    | None => filtered
    end in
  filtered.

(** [getRepositoryById(repositories, id)] *)
Definition getRepositoryById (repositories : list GitHubRepository.t) (id : Z)
    : option GitHubRepository.t :=
  List.find (fun repo => (GitHubRepository.id repo =? id)%Z) repositories.

(** [clearCache()] *)
Definition clearCache : M unit := CacheManager.clear.

(** [getCacheStats()] *)
Definition getCacheStats : M CacheManager.Stats := CacheManager.getStats.

End Service.
End DataService.

(** ** Reading a trace *)

(** The file writes recorded in a trace. *)
Definition is_write (e : Event) : bool :=
  match e with
  | WriteFile _ _ => true
  | _ => false
  end.

Definition writes (w : World) : list Event := List.filter is_write (trace w).

(** The HTTP requests recorded in a trace. *)
Definition is_request (e : Event) : bool :=
  match e with
  | HttpGet _ _ => true
  | _ => false
  end.

Definition requests (w : World) : list Event := List.filter is_request (trace w).

(** ** Notions of the specification *)

(** Two parameter sets that are equal as sets of (name, value) pairs. *)
Definition same_pairs (P1 P2 : Params) : Prop :=
  forall p : string * JValue, p ∈ P1 <-> p ∈ P2.

(** The age of an entry, and the validity window
    [now - entry.storedAt < TTL]. *)
Definition age (w : World) (entry : CacheEntry) : Z := (now w - timestamp entry)%Z.

Definition fresh (w : World) (entry : CacheEntry) : Prop :=
  (age w entry < cacheDuration w)%Z.

#[global] Instance fresh_dec (w : World) (entry : CacheEntry) : Decision (fresh w entry).
Proof. unfold fresh. apply _. Defined.

(** The entries within the window, and the others. *)
Definition fresh_entries (w : World) : Cache :=
  filter (fun kv : string * CacheEntry => fresh w kv.2) (cache w).

Definition stale_entries (w : World) : Cache :=
  filter (fun kv : string * CacheEntry => ~ fresh w kv.2) (cache w).

(** [get] serves an entry: it returns the entry's data through the hit
    branch, which logs the hit. *)
Definition serves (w : World) (endpoint : string) (params : option Params)
    (entry : CacheEntry) : Prop :=
  CacheManager.get endpoint params w =
  (Return (data entry),
   after (emit (ConsoleLog ("[CACHE HIT] Using cached data for " +:+ endpoint))) w).

(** The reading of [cleanup] under which an entry goes exactly when its age
    exceeds the TTL. *)
Definition cleanup_removes_iff_exceeds (w : World) : Prop :=
  forall (k : string) (entry : CacheEntry),
    cache w !! k = Some entry ->
    (cache (after CacheManager.cleanup w) !! k = None
     <-> (age w entry > cacheDuration w)%Z).

(** A failure of the transport itself, by its code. *)
Definition transport_failure (error : AxiosError.t) : Prop :=
  AxiosError.code error = Some "ECONNABORTED" \/
  AxiosError.code error = Some "ENOTFOUND" \/
  AxiosError.code error = Some "EAI_AGAIN".

(** A response that came back with a status code: the failure is not one of
    the transport's, and carries the response. *)
Definition http_failure (error : AxiosError.t) (response : AxiosError.Response) : Prop :=
  ~ transport_failure error /\ AxiosError.response error = Some response.

(** A structured payload: an object or an array, not null, not a
    primitive. *)
Definition structured (data : JValue) : Prop :=
  match data with
  | JObj _ | JArr _ => True
  | _ => False
  end.

(** Every payload in the store is a structured one. *)
Definition structured_store (w : World) : Prop :=
  forall (k : string) (entry : CacheEntry),
    cache w !! k = Some entry -> structured (data entry).

(** The message of a validation error that names a field. *)
Definition missing_field (field : string) : APIError.t :=
  APIError.Error ("Invalid response: Missing required field '" +:+ field +:+ "'").

(** The validator names the first required field that the payload lacks. *)
Definition names_first_missing (h : Host) (data : JValue) (requiredFields : list string)
    : Prop :=
  forall (before : list string) (field : string) (rest : list string) (w : World),
    requiredFields = (before ++ field :: rest)%list ->
    (forall f, f ∈ before -> GitHubAPIClient.in_operator h f data = true) ->
    GitHubAPIClient.in_operator h field data = false ->
    GitHubAPIClient.validateResponse h data requiredFields w = (Throw (missing_field field), w).

(** The shape the four read operations of the data service share: try the
    cache, and on a miss fetch, store and return. *)
Definition cached_read (endpoint : string) (params : option Params) (fetch : M JValue)
    : M JValue :=
  let* cached := CacheManager.get endpoint params in
  if truthy cached then ret cached
  else
    let* data := fetch in
    CacheManager.set endpoint data params >>
    ret data.

(** The state once a request has been sent and answered: the request is on
    the trace and the clock has moved by the time the answer took. *)
Definition sent (h : Host) (url : string) (query : option Params) (w : World) : World :=
  after (elapse (snd (remote h url query (now w)))) (after (emit (HttpGet url query)) w).

(** The contract of a read operation [op] of the data service that caches
    under [(endpoint, params)] and fetches with the client operation
    [fetch], which requests [url] with [query].  A hit is a truthy value
    returned by [CacheManager.get]. *)
Definition cache_then_fetch (h : Host) (op : M JValue)
    (endpoint : string) (params : option Params)
    (fetch : M JValue) (url : string) (query : option Params) : Prop :=
  forall w : World,
    let key := CacheManager.generateKey endpoint params in
    let cached := result (CacheManager.get endpoint params) w in
    let w1 := after (CacheManager.get endpoint params) w in
    let w2 := after fetch w1 in
    (forall payload : JValue,
       cached = Return payload -> truthy payload = true ->
       op w = (Return payload, w1) /\
       (exists entry : CacheEntry,
          cache w !! key = Some entry /\ fresh w entry /\ payload = data entry) /\
       requests w1 = requests w /\ cache w1 = cache w /\ writes w1 = writes w) /\
    (forall entry : CacheEntry,
       cache w !! key = Some entry -> fresh w entry -> structured (data entry) ->
       cached = Return (data entry) /\ truthy (data entry) = true) /\
    (forall v : JValue,
       cached = Return v -> truthy v = false ->
       requests w2 = HttpGet url query :: requests w /\
       (forall e : APIError.t,
          result fetch w1 = Throw e ->
          op w = (Throw e, w2) /\ cache w2 = cache w /\ writes w2 = writes w) /\
       (forall payload : JValue,
          result fetch w1 = Return payload ->
          op w = (Return payload, after (CacheManager.set endpoint payload params) w2) /\
          cache (after op w)
          = <[key := {| data := payload; timestamp := now w2 |}]> (cache w) /\
          writes (after op w) = WriteFile (cacheFile w) (cache (after op w)) :: writes w)).

(** Case-insensitive equality of a repository's language with a given
    one. *)
Definition language_matches (h : Host) (lang : string) (repo : GitHubRepository.t) : bool :=
  DataService.strict_eq
    (DataService.optional_toLowerCase h (GitHubRepository.language repo))
    (Some (toLowerCase h lang)).

Definition stars_criteria (filters : FilterOptions.t) (repo : GitHubRepository.t) : bool :=
  match FilterOptions.minStars filters with
  | Some minStars => js_ge (GitHubRepository.stargazers_count repo) minStars
  | None => true
  end
  && match FilterOptions.maxStars filters with
     | Some maxStars => js_le (GitHubRepository.stargazers_count repo) maxStars
     | None => true
     end
  && match FilterOptions.archived filters with
     | Some archived => Bool.eqb (GitHubRepository.archived repo) archived
     | None => true
     end.

(** The conjunction of every supplied criterion. *)
Definition meets_supplied (h : Host) (filters : FilterOptions.t) (repo : GitHubRepository.t)
    : bool :=
  match FilterOptions.language filters with
  | Some lang => language_matches h lang repo
  | None => true
  end
  && stars_criteria filters repo.

(** The same conjunction, with the language criterion counted only when it
    is not the empty string. *)
Definition meets_applied (h : Host) (filters : FilterOptions.t) (repo : GitHubRepository.t)
    : bool :=
  match FilterOptions.language filters with
  | Some lang => if String.eqb lang "" then true else language_matches h lang repo
  | None => true
  end
  && stars_criteria filters repo.

(** ** Sample states *)

(** Two parameter objects with the same members, created in two orders. *)
Definition params_q_sort : Params := [("q", JStr "rocq"); ("sort", JStr "stars")].
Definition params_sort_q : Params := [("sort", JStr "stars"); ("q", JStr "rocq")].

Definition octocat : JValue :=
  JObj [("login", JStr "octocat"); ("id", JNum (Int 583231));
        ("html_url", JStr "https://github.com/octocat"); ("name", JNull)].

(** The property names of [Object.prototype]. *)
Definition Object_prototype : list string :=
  ["constructor"; "hasOwnProperty"; "isPrototypeOf"; "propertyIsEnumerable";
   "toLocaleString"; "toString"; "valueOf"; "__proto__";
   "__defineGetter__"; "__defineSetter__"; "__lookupGetter__"; "__lookupSetter__"].

(** [toLowerCase] on the ASCII letters. *)
Definition ascii_toLowerCase (c : ascii) : ascii :=
  let n := N_of_ascii c in
  if ((65 <=? n) && (n <=? 90))%N then ascii_of_N (n + 32) else c.

Fixpoint string_toLowerCase (s : string) : string :=
  match s with
  | EmptyString => EmptyString
  | String c s' => String (ascii_toLowerCase c) (string_toLowerCase s')
  end.

(** A host whose remote end knows one user and answers 404 otherwise, in
    120 ms. *)
Definition sample_host : Host :=
  {| toLowerCase := string_toLowerCase;
     inherited := fun data field =>
       match data with
       | JObj _ | JArr _ => existsb (String.eqb field) Object_prototype
       | _ => false
       end;
     remote := fun url _ _ =>
       if String.eqb url "/users/octocat" then (inr octocat, 120%Z)
       else (inl {| AxiosError.code := Some "ERR_BAD_REQUEST";
                    AxiosError.message := "Request failed with status code 404";
                    AxiosError.response :=
                      Some {| AxiosError.status := 404;
                              AxiosError.data := JObj [("message", JStr "Not Found")] |} |},
             120%Z) |}.

(** A repository record with a given star count. *)
Definition repo_with_stars (stars : Z) : GitHubRepository.t :=
  {| GitHubRepository.id := stars;
     GitHubRepository.name := "repo";
     GitHubRepository.full_name := "octocat/repo";
     GitHubRepository.owner :=
       {| GitHubRepository.login := "octocat"; GitHubRepository.owner_id := 583231;
          GitHubRepository.avatar_url := ""; GitHubRepository.type := "User" |};
     GitHubRepository.description := None;
     GitHubRepository.html_url := "https://github.com/octocat/repo";
     GitHubRepository.stargazers_count := Int stars;
     GitHubRepository.watchers_count := Int stars;
     GitHubRepository.forks_count := Int 0;
     GitHubRepository.open_issues_count := Int 0;
     GitHubRepository.language := Some "Go";
     GitHubRepository.created_at := "2024-01-01T00:00:00Z";
     GitHubRepository.updated_at := "2024-01-01T00:00:00Z";
     GitHubRepository.pushed_at := "2024-01-01T00:00:00Z";
     GitHubRepository.size := Int 1;
     GitHubRepository.default_branch := "main";
     GitHubRepository.topics := None;
     GitHubRepository.visibility := "public";
     GitHubRepository.archived := false;
     GitHubRepository.disabled := false;
     GitHubRepository.license := None |}.

Definition no_filter : FilterOptions.t :=
  {| FilterOptions.language := None; FilterOptions.minStars := None;
     FilterOptions.maxStars := None; FilterOptions.archived := None |}.

(** [{ minStars: 100, maxStars: 500 }] and [{ language: '' }]. *)
Definition stars_100_500 : FilterOptions.t :=
  {| FilterOptions.language := None; FilterOptions.minStars := Some (Int 100);
     FilterOptions.maxStars := Some (Int 500); FilterOptions.archived := None |}.

Definition empty_language : FilterOptions.t :=
  {| FilterOptions.language := Some ""; FilterOptions.minStars := None;
     FilterOptions.maxStars := None; FilterOptions.archived := None |}.

(** A store with the default five-minute window, holding one entry written
    at time 1000. *)
Definition world_at (t : Z) : World :=
  {| now := t;
     cache := {[ "users/octocat:" := {| data := octocat; timestamp := 1000 |} ]};
     cacheFile := "/tmp/cache.json";
     cacheDuration := 300000;
     disk_ok := true;
     trace := [] |}.

(** ** Further notions *)

(** The statistics of an empty store. *)
Definition zero_stats : CacheManager.Stats :=
  {| CacheManager.totalEntries := 0;
     CacheManager.validEntries := 0;
     CacheManager.expiredEntries := 0 |}.

(** A read operation whose second call is served from the cache: after a
    call that missed and fetched a payload, the same call made less than
    TTL milliseconds later returns that payload and makes no request. *)
Definition second_call_hits (op : M JValue) (endpoint : string) (params : option Params)
    : Prop :=
  forall (w : World) (v payload : JValue) (ms : Z),
    result (CacheManager.get endpoint params) w = Return v ->
    truthy v = false ->
    result op w = Return payload ->
    (ms < cacheDuration w)%Z ->
    result (op >> elapse ms >> op) w = Return payload /\
    requests (after (op >> elapse ms >> op) w) = requests (after op w).

(** A manager built at time 0 on a missing cache file. *)
Definition fresh_start : World :=
  CacheManager.constructor CacheManager.FileMissing None None 0 true.

(** A host whose remote end answers every request, in 5 ms, with a search
    body of one item. *)
Definition search_host : Host :=
  {| toLowerCase := string_toLowerCase;
     inherited := fun _ _ => false;
     remote := fun _ _ _ =>
       (inr (JObj [("total_count", JNum (Int 1)); ("incomplete_results", JBool false);
                   ("items", JArr [octocat])]),
        5%Z) |}.

(** * Properties *)

(** ** Cache keys *)

Lemma generateKey_absent (endpoint : string) :
  CacheManager.generateKey endpoint None = endpoint +:+ ":".
Proof. reflexivity. Qed.

Lemma generateKey_given (endpoint : string) (params : Params) :
  exists body : string,
    CacheManager.generateKey endpoint (Some params) = endpoint +:+ ":" +:+ "{" +:+ body +:+ "}".
Proof. eexists. reflexivity. Qed.

Lemma same_pairs_same_order (P1 : Params) :
  forall P2 : Params,
    NoDup (P1.*1) -> same_pairs P1 P2 -> P1.*1 = P2.*1 -> P1 = P2.
Proof.
  induction P1 as [|[k v] P1 IH]; intros [|[k' v'] P2] Hnd Hsame Hnames;
    simpl in *; try discriminate; [reflexivity|].
  injection Hnames as <- Hnames.
  apply NoDup_cons in Hnd as [Hk Hnd].
  assert (Hv : v = v').
  { assert (Hin : (k, v) ∈ (k, v') :: P2) by (apply Hsame; left).
    apply elem_of_cons in Hin as [Heq|Hin]; [congruence|].
    exfalso. apply Hk. rewrite Hnames.
    apply (list_elem_of_fmap_2 fst) in Hin. exact Hin. }
  subst v'. f_equal. apply IH; [assumption| |assumption].
  intros p. split; intros Hin.
  - assert (Hp : p ∈ (k, v) :: P2) by (apply Hsame; right; exact Hin).
    apply elem_of_cons in Hp as [->|Hp]; [|exact Hp].
    exfalso. apply Hk. apply (list_elem_of_fmap_2 fst) in Hin. exact Hin.
  - assert (Hp : p ∈ (k, v) :: P1) by (apply Hsame; right; exact Hin).
    apply elem_of_cons in Hp as [->|Hp]; [|exact Hp].
    exfalso. apply Hk. rewrite Hnames.
    apply (list_elem_of_fmap_2 fst) in Hin. exact Hin.
Qed.

(** ** The key determines the first parameter *)

Lemma append_cons (x : ascii) (a b : string) : String x a +:+ b = String x (a +:+ b).
Proof. reflexivity. Qed.

Lemma append_assoc (a b c : string) : (a +:+ b) +:+ c = a +:+ (b +:+ c).
Proof.
  induction a as [|x a IH]; [reflexivity|].
  rewrite !append_cons. f_equal. exact IH.
Qed.

Lemma append_eq_prefix (a b t1 t2 : string) :
  a +:+ t1 = b +:+ t2 -> String.prefix a b = true \/ String.prefix b a = true.
Proof.
  revert b. induction a as [|x a IH]; intros b Heq; [left; destruct b; reflexivity|].
  destruct b as [|y b]; [right; reflexivity|].
  rewrite !append_cons in Heq. injection Heq as -> Heq. cbn.
  destruct (ascii_dec y y) as [_|Hne]; [|contradiction].
  apply IH. exact Heq.
Qed.

Lemma forall_ascii (P : ascii -> bool) :
  forallb P (List.map ascii_of_nat (seq 0 256)) = true -> forall c : ascii, P c = true.
Proof.
  intros Hall c. rewrite forallb_forall in Hall. apply Hall.
  rewrite <- (ascii_nat_embedding c). apply in_map. apply in_seq.
  pose proof (nat_ascii_bounded c). lia.
Qed.

Lemma escape_char_prefix (c1 c2 : ascii) :
  String.prefix (escape_char c1) (escape_char c2) = true -> c1 = c2.
Proof.
  intros Hp. apply Ascii.eqb_eq. revert Hp.
  generalize c2. generalize c1.
  assert (Hall : forall a b : ascii,
            implb (String.prefix (escape_char a) (escape_char b)) (Ascii.eqb a b) = true).
  { intros a b.
    assert (Hrow : forallb (fun b' => implb (String.prefix (escape_char a) (escape_char b'))
                                       (Ascii.eqb a b'))
                     (List.map ascii_of_nat (seq 0 256)) = true).
    { revert a. apply forall_ascii. vm_compute. reflexivity. }
    revert b. apply forall_ascii. exact Hrow. }
  intros a b Hp. specialize (Hall a b). rewrite Hp in Hall. exact Hall.
Qed.

Lemma escape_char_code (c1 c2 : ascii) (t1 t2 : string) :
  escape_char c1 +:+ t1 = escape_char c2 +:+ t2 -> c1 = c2 /\ t1 = t2.
Proof.
  intros Heq.
  assert (Hc : c1 = c2).
  { destruct (append_eq_prefix _ _ _ _ Heq) as [Hp|Hp];
      apply escape_char_prefix in Hp; congruence. }
  subst c2. split; [reflexivity|]. apply String.app_inj in Heq. exact Heq.
Qed.

Lemma escape_char_not_quote (c : ascii) (t r : string) :
  escape_char c +:+ t <> String dquote r.
Proof.
  intros Heq. change (String dquote r) with (String dquote "" +:+ r) in Heq.
  assert (Hall : forall a : ascii,
            negb (String.prefix (escape_char a) (String dquote ""))
            && negb (String.prefix (String dquote "") (escape_char a)) = true).
  { apply forall_ascii. vm_compute. reflexivity. }
  specialize (Hall c). apply andb_true_iff in Hall as [H1 H2].
  destruct (append_eq_prefix _ _ _ _ Heq) as [Hp|Hp]; rewrite Hp in *; discriminate.
Qed.

Lemma escape_closing_quote (s1 : string) :
  forall s2 r1 r2 : string,
    escape s1 +:+ String dquote r1 = escape s2 +:+ String dquote r2 ->
    s1 = s2 /\ r1 = r2.
Proof.
  induction s1 as [|c1 s1 IH]; intros [|c2 s2] r1 r2 Heq.
  - injection Heq as ->. auto.
  - exfalso. change (escape (String c2 s2)) with (escape_char c2 +:+ escape s2) in Heq.
    rewrite append_assoc in Heq. symmetry in Heq.
    exact (escape_char_not_quote _ _ _ Heq).
  - exfalso. change (escape (String c1 s1)) with (escape_char c1 +:+ escape s1) in Heq.
    rewrite append_assoc in Heq. exact (escape_char_not_quote _ _ _ Heq).
  - change (escape (String c1 s1)) with (escape_char c1 +:+ escape s1) in Heq.
    change (escape (String c2 s2)) with (escape_char c2 +:+ escape s2) in Heq.
    rewrite !append_assoc in Heq.
    apply escape_char_code in Heq as [-> Heq].
    apply IH in Heq as [-> ->]. auto.
Qed.

(** A quoted string ends at its closing quote: no quoted string is a
    proper prefix of another. *)
Lemma quoteJSONString_prefix_free (s1 s2 r1 r2 : string) :
  quoteJSONString s1 +:+ r1 = quoteJSONString s2 +:+ r2 -> s1 = s2 /\ r1 = r2.
Proof.
  unfold quoteJSONString. rewrite !append_cons, !append_assoc, !append_cons.
  intros [= Heq]. apply escape_closing_quote in Heq. exact Heq.
Qed.

Lemma join_cons_head (x : string) (l : list string) :
  exists rest : string, join "," (x :: l) = x +:+ rest.
Proof.
  destruct l as [|y l].
  - exists "". cbn [join]. induction x as [|c x IH]; [reflexivity|].
    rewrite append_cons. f_equal. exact IH.
  - eexists. reflexivity.
Qed.

Lemma JSON_stringify_first (name : string) (value : JValue) (P : Params) :
  serialize value <> None ->
  exists rest : string, JSON_stringify ((name, value) :: P) = "{" +:+ quoteJSONString name +:+ rest.
Proof.
  intros Hdef. unfold JSON_stringify. cbn [serialize default List.map List.concat fst snd].
  destruct (serialize value) as [s|]; [|contradiction].
  cbn [app].
  match goal with |- context [join "," (?x :: ?l)] =>
    destruct (join_cons_head x l) as [rest ->] end.
  eexists. rewrite !append_assoc. reflexivity.
Qed.

(** The name of the first parameter can be read off the key: two parameter
    objects that start with different names never share a key. *)
Lemma generateKey_first_name (endpoint : string)
    (k1 k2 : string) (v1 v2 : JValue) (P1 P2 : Params) :
  serialize v1 <> None -> serialize v2 <> None ->
  CacheManager.generateKey endpoint (Some ((k1, v1) :: P1))
  = CacheManager.generateKey endpoint (Some ((k2, v2) :: P2)) ->
  k1 = k2.
Proof.
  intros H1 H2 Hkey. unfold CacheManager.generateKey in Hkey.
  destruct (JSON_stringify_first k1 v1 P1 H1) as [r1 Hr1].
  destruct (JSON_stringify_first k2 v2 P2 H2) as [r2 Hr2].
  rewrite Hr1, Hr2 in Hkey.
  do 3 apply String.app_inj in Hkey.
  apply quoteJSONString_prefix_free in Hkey as [Hk _]. exact Hk.
Qed.

(** Swapping two parameters with different names changes the key. *)
Lemma generateKey_swap_differs (endpoint : string) (k1 k2 : string) (v1 v2 : JValue) :
  k1 <> k2 -> serialize v1 <> None -> serialize v2 <> None ->
  CacheManager.generateKey endpoint (Some [(k1, v1); (k2, v2)])
  <> CacheManager.generateKey endpoint (Some [(k2, v2); (k1, v1)]).
Proof.
  intros Hne H1 H2 Hkey. apply Hne.
  exact (generateKey_first_name endpoint k1 k2 v1 v2 _ _ H1 H2 Hkey).
Qed.

(** C1 (as amended). For every endpoint, two parameter sets that hold the
    same (name, value) pairs and list their names in the same order get the
    same cache key.  The key is the endpoint, a colon and [JSON.stringify]
    of the parameter object, which follows the order of the object's
    properties and does not sort them by name: two parameters with
    different names and defined values get one key in one order and another
    key in the other order. *)
Theorem generateKey_follows_property_order (endpoint : string) :
  (forall P1 P2 : Params,
     NoDup (P1.*1) ->
     same_pairs P1 P2 ->
     P1.*1 = P2.*1 ->
     CacheManager.generateKey endpoint (Some P1)
     = CacheManager.generateKey endpoint (Some P2)) /\
  (forall (k1 k2 : string) (v1 v2 : JValue),
     k1 <> k2 -> serialize v1 <> None -> serialize v2 <> None ->
     CacheManager.generateKey endpoint (Some [(k1, v1); (k2, v2)])
     <> CacheManager.generateKey endpoint (Some [(k2, v2); (k1, v1)])).
Proof.
  split.
  - intros P1 P2 Hnd Hsame Hnames.
    rewrite (same_pairs_same_order P1 P2 Hnd Hsame Hnames). reflexivity.
  - intros k1 k2 v1 v2. apply generateKey_swap_differs.
Qed.

Lemma generateKey_follows_property_order_witness :
  CacheManager.generateKey "search/repositories" (Some params_q_sort)
  = CacheManager.generateKey "search/repositories" (Some params_q_sort) /\
  CacheManager.generateKey "search/repositories" (Some params_q_sort)
  <> CacheManager.generateKey "search/repositories" (Some params_sort_q).
Proof.
  split.
  - apply (proj1 (generateKey_follows_property_order "search/repositories")
             params_q_sort params_q_sort).
    + apply (bool_decide_unpack _). vm_compute. exact I.
    + intros p. reflexivity.
    + reflexivity.
  - apply (proj2 (generateKey_follows_property_order "search/repositories")
             "q" "sort" (JStr "rocq") (JStr "stars")); discriminate.
Defined.

(** C1 (as stated) fails: [{q, sort}] and [{sort, q}] are equal as sets of
    pairs, and their keys differ. *)
Lemma generateKey_order_counterexample :
  same_pairs params_q_sort params_sort_q /\
  CacheManager.generateKey "search/repositories" (Some params_q_sort)
  <> CacheManager.generateKey "search/repositories" (Some params_sort_q).
Proof.
  split.
  - intros p. unfold params_q_sort, params_sort_q.
    rewrite !elem_of_cons, !elem_of_nil. tauto.
  - vm_compute. discriminate.
Qed.

(** ** The cache store, one call at a time *)

Lemma saveCache_run (w : World) :
  CacheManager.saveCache w =
  (Return tt,
   {| now := now w; cache := cache w; cacheFile := cacheFile w;
      cacheDuration := cacheDuration w; disk_ok := disk_ok w;
      trace := (if disk_ok w then [] else [ConsoleError "Failed to save cache:"])
               ++ WriteFile (cacheFile w) (cache w) :: trace w |}).
Proof. unfold CacheManager.saveCache. destruct (disk_ok w) eqn:E; simpl; rewrite ?E; reflexivity. Qed.

Lemma isValid_run (entry : CacheEntry) (w : World) :
  CacheManager.isValid entry w = (Return (bool_decide (fresh w entry)), w).
Proof.
  unfold CacheManager.isValid, bind, Date_now, this_cacheDuration, ret, fresh, age. simpl.
  do 2 f_equal. destruct (Z.ltb_spec (now w - timestamp entry) (cacheDuration w)).
  - rewrite bool_decide_eq_true_2; auto.
  - rewrite bool_decide_eq_false_2; auto; lia.
Qed.

Lemma get_run (endpoint : string) (params : option Params) (w : World) :
  CacheManager.get endpoint params w =
  match cache w !! CacheManager.generateKey endpoint params with
  | Some entry =>
      if bool_decide (fresh w entry) then
        (Return (data entry),
         after (emit (ConsoleLog ("[CACHE HIT] Using cached data for " +:+ endpoint))) w)
      else (Return JNull, w)
  | None => (Return JNull, w)
  end.
Proof.
  unfold CacheManager.get, bind, cache_lookup. cbv beta iota zeta.
  destruct (cache w !! CacheManager.generateKey endpoint params) as [entry|]; [|reflexivity].
  rewrite isValid_run. destruct (bool_decide (fresh w entry)); reflexivity.
Qed.

Lemma set_run (endpoint : string) (payload : JValue) (params : option Params) (w : World) :
  CacheManager.set endpoint payload params w =
  CacheManager.saveCache
    (after (cache_assign (CacheManager.generateKey endpoint params)
              {| data := payload; timestamp := now w |}) w).
Proof. reflexivity. Qed.

Lemma set_cache (endpoint : string) (payload : JValue) (params : option Params) (w : World) :
  cache (after (CacheManager.set endpoint payload params) w) =
  <[CacheManager.generateKey endpoint params := {| data := payload; timestamp := now w |}]>
    (cache w).
Proof. unfold after. rewrite set_run, saveCache_run. reflexivity. Qed.

(** C9. For every endpoint the key derived without a parameter argument is
    the endpoint followed by a colon, the key derived with an empty
    parameter object is the endpoint followed by [:{}], the two differ (as
    does the key of any given parameter object), and writing an entry under
    one leaves the entry under the other as it was. *)
Theorem generateKey_absent_vs_empty (endpoint : string) :
  CacheManager.generateKey endpoint None = endpoint +:+ ":" /\
  CacheManager.generateKey endpoint (Some []) = endpoint +:+ ":{}" /\
  CacheManager.generateKey endpoint None <> CacheManager.generateKey endpoint (Some []) /\
  (forall params : Params,
     CacheManager.generateKey endpoint None <> CacheManager.generateKey endpoint (Some params)) /\
  (forall (w : World) (payload : JValue),
     cache (after (CacheManager.set endpoint payload (Some [])) w)
       !! CacheManager.generateKey endpoint None
     = cache w !! CacheManager.generateKey endpoint None) /\
  (forall (w : World) (payload : JValue),
     cache (after (CacheManager.set endpoint payload None) w)
       !! CacheManager.generateKey endpoint (Some [])
     = cache w !! CacheManager.generateKey endpoint (Some [])).
Proof.
  assert (Hne : forall params : Params,
    CacheManager.generateKey endpoint None <> CacheManager.generateKey endpoint (Some params)).
  { intros params Heq. destruct (generateKey_given endpoint params) as [body Hbody].
    rewrite Hbody, generateKey_absent in Heq.
    apply String.app_inj in Heq. discriminate Heq. }
  split; [reflexivity|]. split; [reflexivity|]. split; [apply Hne|]. split; [exact Hne|].
  split; intros w payload; rewrite set_cache.
  - apply lookup_insert_ne. intros Heq. exact (Hne [] (eq_sym Heq)).
  - apply lookup_insert_ne. apply Hne.
Qed.

(** C2. [get] returns the payload stored under the derived key when an entry
    is there and [now - entry.timestamp < TTL] holds strictly; in every
    other case (no entry, or an entry that is not within the window) it
    returns [null].  It never throws, never changes the map (an expired
    entry stays where it is) and never writes the file. *)
Theorem get_returns_payload_iff_fresh
    (w : World) (endpoint : string) (params : option Params) :
  (forall entry : CacheEntry,
     cache w !! CacheManager.generateKey endpoint params = Some entry ->
     fresh w entry ->
     result (CacheManager.get endpoint params) w = Return (data entry)) /\
  (~ (exists entry : CacheEntry,
        cache w !! CacheManager.generateKey endpoint params = Some entry /\ fresh w entry) ->
   result (CacheManager.get endpoint params) w = Return JNull) /\
  cache (after (CacheManager.get endpoint params) w) = cache w /\
  writes (after (CacheManager.get endpoint params) w) = writes w.
Proof.
  unfold result, after. rewrite get_run.
  destruct (cache w !! CacheManager.generateKey endpoint params) as [entry|] eqn:Hlook.
  - destruct (bool_decide (fresh w entry)) eqn:Hfresh.
    + apply bool_decide_eq_true_1 in Hfresh. repeat split.
      * intros entry' [= <-] _. reflexivity.
      * intros Hno. exfalso. apply Hno. exists entry. split; [reflexivity|assumption].
    + apply bool_decide_eq_false_1 in Hfresh. repeat split.
      * intros entry' [= <-] Hf. contradiction.
  - repeat split. intros entry' [=].
Qed.

Lemma get_returns_payload_iff_fresh_witness :
  result (CacheManager.get "users/octocat" None) (world_at 300999) = Return octocat /\
  result (CacheManager.get "users/octocat" None) (world_at 301000) = Return JNull.
Proof.
  split.
  - apply (proj1 (get_returns_payload_iff_fresh (world_at 300999) "users/octocat" None)
             {| data := octocat; timestamp := 1000 |}).
    + reflexivity.
    + unfold fresh, age. simpl. lia.
  - apply (proj1 (proj2 (get_returns_payload_iff_fresh (world_at 301000) "users/octocat" None))).
    intros [entry [Hlook Hfresh]].
    assert (Hentry : entry = {| data := octocat; timestamp := 1000 |}).
    { change (CacheManager.generateKey "users/octocat" None) with "users/octocat:" in Hlook.
      unfold world_at in Hlook. cbn [cache] in Hlook.
      rewrite lookup_singleton_eq in Hlook. congruence. }
    subst entry. unfold fresh, age in Hfresh. simpl in Hfresh. lia.
Defined.

(** C7. Writing a payload with [set] and reading it back with [get], for
    the same endpoint and parameters, less than TTL milliseconds later,
    returns exactly the payload written, whatever the cache held under that
    key before. *)
Theorem set_then_get_roundtrip
    (w : World) (endpoint : string) (params : option Params) (payload : JValue) (ms : Z) :
  (ms < cacheDuration w)%Z ->
  result (CacheManager.set endpoint payload params >>
          elapse ms >>
          CacheManager.get endpoint params) w
  = Return payload.
Proof.
  intros Hms. unfold result, bind. rewrite set_run, saveCache_run.
  cbv beta iota zeta. unfold elapse at 1. cbv beta iota zeta.
  rewrite get_run. cbn [cache now cacheDuration after cache_assign with_cache snd].
  rewrite lookup_insert_eq.
  rewrite bool_decide_eq_true_2; [reflexivity|].
  unfold fresh, age. cbn. lia.
Qed.

Lemma set_then_get_roundtrip_witness :
  result (CacheManager.set "users/octocat" (JStr "new") None >>
          elapse 299999 >>
          CacheManager.get "users/octocat" None) (world_at 5000)
  = Return (JStr "new").
Proof.
  apply (set_then_get_roundtrip (world_at 5000) "users/octocat" None (JStr "new") 299999).
  simpl. lia.
Defined.

(** ** The cleanup loop and the statistics scan *)

Lemma with_cache_id (w : World) : after (with_cache (fun c => c)) w = w.
Proof. destruct w. reflexivity. Qed.

Lemma cleanup_forEach_run (ks : list string) :
  forall (n : Z) (w : World),
    NoDup ks ->
    (forall k, k ∈ ks -> is_Some (cache w !! k)) ->
    CacheManager.cleanup_forEach ks n w =
    (Return (n + Z.of_nat (size (cache w))
             - Z.of_nat (size (filter (fun kv : string * CacheEntry =>
                                         kv.1 ∉ ks \/ fresh w kv.2) (cache w))))%Z,
     after (with_cache (filter (fun kv : string * CacheEntry =>
                                  kv.1 ∉ ks \/ fresh w kv.2))) w).
Proof.
  induction ks as [|k ks IH]; intros n w Hnd Hin.
  - assert (Hid : filter (fun kv : string * CacheEntry => kv.1 ∉ [] \/ fresh w kv.2) (cache w)
                  = cache w).
    { apply map_filter_id. intros i x _. left. apply not_elem_of_nil. }
    cbn [CacheManager.cleanup_forEach]. unfold ret, after, with_cache. cbn [snd]. rewrite Hid.
    f_equal; [f_equal; lia|]. destruct w; reflexivity.
  - apply NoDup_cons in Hnd as [Hk Hnd].
    destruct (Hin k) as [e He]; [left|].
    cbn [CacheManager.cleanup_forEach]. unfold bind at 1, cache_lookup. cbv beta iota zeta.
    rewrite He. unfold bind at 1. rewrite isValid_run. cbv beta iota zeta.
    destruct (bool_decide (fresh w e)) eqn:Hf; cbn [negb].
    + apply bool_decide_eq_true_1 in Hf.
      rewrite IH; [|assumption|intros k' Hk'; apply Hin; right; assumption].
      assert (Hext : filter (fun kv : string * CacheEntry => kv.1 ∉ ks \/ fresh w kv.2) (cache w)
                     = filter (fun kv : string * CacheEntry => kv.1 ∉ k :: ks \/ fresh w kv.2) (cache w)).
      { apply map_filter_ext. intros i x Hix. cbn [fst snd]. split.
        - intros [Hni|Hfr]; [|right; assumption].
          destruct (decide (i = k)) as [->|Hne].
          + right. congruence.
          + left. intros [?|?]%elem_of_cons; contradiction.
        - intros [Hni|Hfr]; [|right; assumption].
          left. intros Hi. apply Hni. right. assumption. }
      unfold after, with_cache. cbn [snd]. rewrite Hext. reflexivity.
    + apply bool_decide_eq_false_1 in Hf.
      unfold bind at 1, cache_delete, with_cache. cbv beta iota zeta.
      rewrite IH; [|assumption|].
      2:{ intros k' Hk'. cbn [cache]. rewrite lookup_delete_ne; [apply Hin; right; assumption|].
          intros ->. contradiction. }
      cbn [cache now cacheDuration after with_cache snd].
      assert (Hext : filter (fun kv : string * CacheEntry =>
                               kv.1 ∉ ks \/ fresh {| now := now w; cache := delete k (cache w);
                                    cacheFile := cacheFile w; cacheDuration := cacheDuration w;
                                    disk_ok := disk_ok w; trace := trace w |} kv.2)
                         (delete k (cache w))
                     = filter (fun kv : string * CacheEntry => kv.1 ∉ k :: ks \/ fresh w kv.2) (cache w)).
      { apply map_eq. intros i. rewrite !map_lookup_filter.
        destruct (decide (i = k)) as [->|Hne].
        - rewrite lookup_delete_eq, He. cbn.
          rewrite option_guard_False; [reflexivity|].
          intros [Hni|Hfr]; [apply Hni; left|contradiction].
        - rewrite lookup_delete_ne by congruence.
          destruct (cache w !! i) as [x|]; [|reflexivity]. cbn.
          apply option_guard_iff. unfold fresh, age. cbn. split.
          + intros [Hni|Hfr]; [left|right; assumption].
            intros [?|?]%elem_of_cons; contradiction.
          + intros [Hni|Hfr]; [left|right; assumption].
            intros Hi. apply Hni. right. assumption. }
      rewrite Hext. f_equal. f_equal.
      rewrite map_size_delete_Some by eauto.
      assert (size (cache w) <> 0).
      { apply map_size_non_empty_iff. intros Hemp. rewrite Hemp in He. discriminate. }
      lia.
Qed.

Lemma elem_of_Object_keys (w : World) (k : string) :
  k ∈ (map_to_list (cache w)).*1 <-> is_Some (cache w !! k).
Proof.
  rewrite list_elem_of_fmap. split.
  - intros [[k' e] [-> Hin]]. apply elem_of_map_to_list in Hin. eauto.
  - intros [e He]. exists (k, e). split; [reflexivity|]. apply elem_of_map_to_list. exact He.
Qed.

Lemma cleanup_forEach_all (w : World) (n : Z) :
  CacheManager.cleanup_forEach (map_to_list (cache w)).*1 n w =
  (Return (n + Z.of_nat (size (cache w)) - Z.of_nat (size (fresh_entries w)))%Z,
   after (with_cache (fun _ => fresh_entries w)) w).
Proof.
  rewrite cleanup_forEach_run.
  - assert (Hext : filter (fun kv : string * CacheEntry =>
                             kv.1 ∉ (map_to_list (cache w)).*1 \/ fresh w kv.2) (cache w)
                   = fresh_entries w).
    { apply map_filter_ext. intros i x Hix. cbn [fst snd]. split; [|tauto].
      intros [Hni|Hfr]; [|assumption]. exfalso. apply Hni.
      apply elem_of_Object_keys. eauto. }
    unfold after, with_cache. cbn [snd]. rewrite Hext. reflexivity.
  - apply NoDup_fst_map_to_list.
  - intros k. apply elem_of_Object_keys.
Qed.

Lemma size_fresh_stale (w : World) :
  size (cache w) = size (fresh_entries w) + size (stale_entries w).
Proof.
  unfold fresh_entries, stale_entries.
  rewrite <- map_size_disj_union by apply map_disjoint_filter_complement.
  rewrite map_filter_union_complement. reflexivity.
Qed.

Lemma fresh_entries_all (w : World) :
  size (stale_entries w) = 0 -> fresh_entries w = cache w.
Proof.
  intros Hz. apply map_size_empty_iff in Hz.
  etrans; [|apply (map_filter_union_complement
                     (fun kv : string * CacheEntry => fresh w kv.2) (cache w))].
  change (fresh_entries w = fresh_entries w ∪ stale_entries w).
  rewrite Hz. symmetry. apply (right_id _ _).
Qed.

Lemma cleanup_run (w : World) :
  CacheManager.cleanup w =
  if decide (size (stale_entries w) = 0) then (Return tt, w)
  else
    (CacheManager.saveCache >>
     emit (ConsoleLog ("Removed " +:+ pretty (Z.of_nat (size (stale_entries w)))
                       +:+ " expired cache entries")))
      (after (with_cache (fun _ => fresh_entries w)) w).
Proof.
  unfold CacheManager.cleanup, bind at 1, Object_keys. cbv beta iota zeta.
  unfold bind at 1. rewrite cleanup_forEach_all. cbv beta iota zeta.
  pose proof (size_fresh_stale w) as Hsize.
  replace (0 + Z.of_nat (size (cache w)) - Z.of_nat (size (fresh_entries w)))%Z
    with (Z.of_nat (size (stale_entries w))) by lia.
  destruct (decide (size (stale_entries w) = 0)) as [Hz|Hnz].
  - rewrite Hz. cbn [Z.of_nat Z.ltb Z.compare]. unfold ret.
    rewrite (fresh_entries_all w Hz).
    f_equal. destruct w; reflexivity.
  - destruct (Z.ltb_spec 0 (Z.of_nat (size (stale_entries w)))); [reflexivity|lia].
Qed.

Lemma filter_valid_run (l : list (string * CacheEntry)) (w : World) :
  (forall k e, (k, e) ∈ l -> cache w !! k = Some e) ->
  CacheManager.filter_valid l.*1 w =
  (Return (filter (fun kv : string * CacheEntry => fresh w kv.2) l).*1, w).
Proof.
  induction l as [|[k e] l IH]; intros Hl; [reflexivity|].
  cbn [fmap list_fmap CacheManager.filter_valid fst].
  unfold bind at 1, cache_lookup. cbv beta iota zeta.
  rewrite (Hl k e) by left.
  unfold bind at 1. rewrite isValid_run. cbv beta iota zeta.
  unfold bind at 1. rewrite IH by (intros k' e' Hin; apply Hl; right; exact Hin).
  cbv beta iota zeta. unfold ret. rewrite filter_cons. cbn [snd].
  destruct (decide (fresh w e)) as [Hf|Hf].
  - rewrite bool_decide_eq_true_2 by assumption. reflexivity.
  - rewrite bool_decide_eq_false_2 by assumption. reflexivity.
Qed.

Lemma length_filter_map_to_list (w : World) :
  length (filter (fun kv : string * CacheEntry => fresh w kv.2) (map_to_list (cache w))).*1
  = size (fresh_entries w).
Proof.
  rewrite length_fmap. unfold fresh_entries. rewrite map_filter_alt.
  rewrite map_size_list_to_map; [reflexivity|].
  apply (sublist_NoDup _ (map_to_list (cache w)).*1); [apply NoDup_fst_map_to_list|].
  apply fmap_sublist, sublist_filter.
Qed.

Lemma getStats_run (w : World) :
  CacheManager.getStats w =
  (Return {| CacheManager.totalEntries := Z.of_nat (size (cache w));
             CacheManager.validEntries := Z.of_nat (size (fresh_entries w));
             CacheManager.expiredEntries := Z.of_nat (size (stale_entries w)) |},
   w).
Proof.
  unfold CacheManager.getStats, bind at 1, Object_keys. cbv beta iota zeta.
  unfold bind at 1. rewrite filter_valid_run by (intros k e; apply elem_of_map_to_list).
  cbv beta iota zeta. unfold ret.
  rewrite length_filter_map_to_list, length_fmap, length_map_to_list.
  pose proof (size_fresh_stale w) as Hsize.
  replace (Z.of_nat (size (cache w)) - Z.of_nat (size (fresh_entries w)))%Z
    with (Z.of_nat (size (stale_entries w))) by lia.
  reflexivity.
Qed.

Lemma cleanup_after (w : World) :
  result CacheManager.cleanup w = Return tt /\
  cache (after CacheManager.cleanup w) = fresh_entries w /\
  now (after CacheManager.cleanup w) = now w /\
  cacheDuration (after CacheManager.cleanup w) = cacheDuration w /\
  writes (after CacheManager.cleanup w) =
    (if decide (size (stale_entries w) = 0) then writes w
     else WriteFile (cacheFile w) (fresh_entries w) :: writes w).
Proof.
  unfold result, after. rewrite cleanup_run.
  destruct (decide (size (stale_entries w) = 0)) as [Hz|Hnz].
  - cbn [fst snd]. rewrite (fresh_entries_all w Hz). auto.
  - unfold bind. rewrite saveCache_run. cbv beta iota zeta.
    unfold emit, after, with_cache, writes. cbn.
    destruct (disk_ok w); cbn; auto.
Qed.

Lemma fresh_entries_lookup (w : World) (k : string) (entry : CacheEntry) :
  fresh_entries w !! k = Some entry <-> cache w !! k = Some entry /\ fresh w entry.
Proof. unfold fresh_entries. rewrite map_lookup_filter_Some. reflexivity. Qed.

Lemma stale_entries_lookup (w : World) (k : string) (entry : CacheEntry) :
  stale_entries w !! k = Some entry <-> cache w !! k = Some entry /\ ~ fresh w entry.
Proof. unfold stale_entries. rewrite map_lookup_filter_Some. reflexivity. Qed.

Lemma fresh_entries_None (w : World) (k : string) :
  fresh_entries w !! k = None <->
  (forall entry, cache w !! k = Some entry -> ~ fresh w entry).
Proof. unfold fresh_entries. rewrite map_lookup_filter_None. cbn. split.
  - intros [Hn|Hall] entry He; [congruence|]. apply Hall. exact He.
  - intros Hall. right. exact Hall.
Qed.

Lemma fresh_entries_idem (w w' : World) :
  cache w' = fresh_entries w -> now w' = now w -> cacheDuration w' = cacheDuration w ->
  fresh_entries w' = fresh_entries w /\ size (stale_entries w') = 0.
Proof.
  intros Hc Hn Hd.
  assert (Hf : fresh_entries w' = fresh_entries w).
  { unfold fresh_entries at 1. rewrite Hc. apply map_filter_id.
    intros i x Hix. apply fresh_entries_lookup in Hix as [_ Hfr].
    unfold fresh, age in *. cbn [snd]. rewrite Hn, Hd. exact Hfr. }
  split; [exact Hf|].
  pose proof (size_fresh_stale w') as Hs. rewrite Hf, Hc in Hs. lia.
Qed.

(** C4 (as amended). [cleanup] never throws and removes exactly the entries
    that are not within the window, those whose age is at least the TTL;
    every entry within the window stays under its key with the same data
    and timestamp, and no key appears.  The file is written, once and with
    the map as pruned, exactly when at least one entry was removed.  The
    statistics after the call are those before it with the removed count,
    which is the count reported as expired, taken off the total and off the
    expired count; the valid count stays. *)
Theorem cleanup_removes_exactly_stale (w : World) :
  let w' := after CacheManager.cleanup w in
  let removed := (Z.of_nat (size (cache w)) - Z.of_nat (size (cache w')))%Z in
  result CacheManager.cleanup w = Return tt /\
  (forall (k : string) (entry : CacheEntry),
     cache w !! k = Some entry ->
     (cache w' !! k = None <-> (cacheDuration w <= age w entry)%Z) /\
     (cache w' !! k = Some entry <-> (age w entry < cacheDuration w)%Z)) /\
  (forall k : string, cache w !! k = None -> cache w' !! k = None) /\
  ((removed = 0)%Z -> writes w' = writes w) /\
  ((removed <> 0)%Z -> writes w' = WriteFile (cacheFile w) (cache w') :: writes w) /\
  exists total valid expired : Z,
    result CacheManager.getStats w =
      Return {| CacheManager.totalEntries := total;
                CacheManager.validEntries := valid;
                CacheManager.expiredEntries := expired |} /\
    result CacheManager.getStats w' =
      Return {| CacheManager.totalEntries := total - removed;
                CacheManager.validEntries := valid;
                CacheManager.expiredEntries := expired - removed |} /\
    removed = expired.
Proof.
  intros w' removed.
  destruct (cleanup_after w) as (Hres & Hcache & Hnow & Hdur & Hwrites).
  fold w' in Hcache, Hnow, Hdur, Hwrites.
  pose proof (size_fresh_stale w) as Hsize.
  assert (Hremoved : removed = Z.of_nat (size (stale_entries w))).
  { unfold removed. rewrite Hcache. lia. }
  split; [exact Hres|]. split; [|split; [|split; [|split]]].
  - intros k entry Hk. rewrite Hcache. split.
    + rewrite fresh_entries_None. unfold fresh. split.
      * intros Hall. specialize (Hall entry Hk). lia.
      * intros Hage entry' He'. assert (entry' = entry) by congruence. subst. lia.
    + rewrite fresh_entries_lookup. unfold fresh. tauto.
  - intros k Hk. rewrite Hcache. apply fresh_entries_None. congruence.
  - intros Hz. rewrite Hwrites. rewrite decide_True by lia. reflexivity.
  - intros Hnz. rewrite Hwrites, Hcache. rewrite decide_False by lia. reflexivity.
  - exists (Z.of_nat (size (cache w))), (Z.of_nat (size (fresh_entries w))),
      (Z.of_nat (size (stale_entries w))).
    destruct (fresh_entries_idem w w' Hcache Hnow Hdur) as [Hf Hs].
    unfold result. rewrite !getStats_run. cbn [fst].
    rewrite Hf, Hs, Hremoved, Hcache. split; [reflexivity|]. split; [|reflexivity].
    f_equal. f_equal; lia.
Qed.

Lemma cleanup_removes_exactly_stale_witness :
  cache (after CacheManager.cleanup (world_at 301000)) !! "users/octocat:" = None /\
  cache (after CacheManager.cleanup (world_at 300999)) !! "users/octocat:"
  = Some {| data := octocat; timestamp := 1000 |}.
Proof.
  split.
  - apply (proj2 (proj1 (proj1 (proj2 (cleanup_removes_exactly_stale (world_at 301000)))
                          "users/octocat:" {| data := octocat; timestamp := 1000 |}
                          (lookup_singleton_eq _ _)))).
    unfold age. cbn. lia.
  - apply (proj2 (proj2 (proj1 (proj2 (cleanup_removes_exactly_stale (world_at 300999)))
                          "users/octocat:" {| data := octocat; timestamp := 1000 |}
                          (lookup_singleton_eq _ _)))).
    unfold age. cbn. lia.
Defined.

(** C4 (as stated) fails at the boundary: an entry whose age equals the TTL
    does not exceed it, and [cleanup] removes it. *)
Lemma cleanup_boundary_counterexample :
  ~ cleanup_removes_iff_exceeds (world_at 301000).
Proof.
  intros Hclaim.
  destruct (Hclaim "users/octocat:" {| data := octocat; timestamp := 1000 |}) as [Hgone _].
  - unfold world_at. cbn [cache]. apply lookup_singleton_eq.
  - assert (Hnone : cache (after CacheManager.cleanup (world_at 301000)) !! "users/octocat:" = None).
    { destruct (cleanup_after (world_at 301000)) as (_ & -> & _).
      apply fresh_entries_None. intros entry He.
      unfold world_at in He. cbn [cache] in He. rewrite lookup_singleton_eq in He.
      injection He as <-. unfold fresh, age. cbn. lia. }
    specialize (Hgone Hnone). unfold age in Hgone. cbn in Hgone. lia.
Qed.

Lemma cons_neq_self {A : Type} (x : A) (l : list A) : x :: l <> l.
Proof. intros Heq. apply (f_equal length) in Heq. cbn in Heq. lia. Qed.

(** C10. One predicate, [now - entry.timestamp < TTL] with a strict
    inequality, decides an entry's fate in all three operations.  For an
    entry stored under a derived key, at one instant: [get] serves it if and
    only if it is within the window, if and only if [cleanup] keeps it, if
    and only if it is one of the entries [getStats] counts as valid;
    otherwise it is one of those counted as expired, and the total is the
    sum of the two counts.  An entry whose age is exactly the TTL gets
    [null] from [get], is removed by [cleanup] and is counted as expired. *)
Theorem validity_is_uniform
    (w : World) (endpoint : string) (params : option Params) (entry : CacheEntry) :
  cache w !! CacheManager.generateKey endpoint params = Some entry ->
  let key := CacheManager.generateKey endpoint params in
  (serves w endpoint params entry <-> (age w entry < cacheDuration w)%Z) /\
  (cache (after CacheManager.cleanup w) !! key = Some entry
   <-> (age w entry < cacheDuration w)%Z) /\
  (fresh_entries w !! key = Some entry <-> (age w entry < cacheDuration w)%Z) /\
  (stale_entries w !! key = Some entry <-> ~ (age w entry < cacheDuration w)%Z) /\
  result CacheManager.getStats w =
    Return {| CacheManager.totalEntries := Z.of_nat (size (cache w));
              CacheManager.validEntries := Z.of_nat (size (fresh_entries w));
              CacheManager.expiredEntries := Z.of_nat (size (stale_entries w)) |} /\
  size (cache w) = size (fresh_entries w) + size (stale_entries w) /\
  (age w entry = cacheDuration w ->
   result (CacheManager.get endpoint params) w = Return JNull /\
   cache (after CacheManager.cleanup w) !! key = None /\
   stale_entries w !! key = Some entry).
Proof.
  intros Hk key. fold key in Hk.
  destruct (cleanup_after w) as (_ & Hcache & _).
  change (age w entry < cacheDuration w)%Z with (fresh w entry).
  assert (Hserves : serves w endpoint params entry <-> fresh w entry).
  { unfold serves. rewrite get_run. fold key. rewrite Hk.
    destruct (decide (fresh w entry)) as [Hf|Hf].
    - rewrite bool_decide_eq_true_2 by assumption. tauto.
    - rewrite bool_decide_eq_false_2 by assumption. split; [|tauto].
      intros Heq. exfalso. injection Heq as _ Hw.
      apply (f_equal trace) in Hw. cbn in Hw.
      symmetry in Hw. exact (cons_neq_self _ _ Hw). }
  split; [exact Hserves|]. split; [|split; [|split; [|split; [|split]]]].
  - rewrite Hcache, fresh_entries_lookup. tauto.
  - rewrite fresh_entries_lookup. tauto.
  - rewrite stale_entries_lookup. tauto.
  - unfold result. rewrite getStats_run. reflexivity.
  - apply size_fresh_stale.
  - intros Hage.
    assert (Hstale : ~ fresh w entry) by (unfold fresh; lia).
    split; [|split].
    + unfold result. rewrite get_run. fold key. rewrite Hk.
      rewrite bool_decide_eq_false_2 by assumption. reflexivity.
    + rewrite Hcache. apply fresh_entries_None. intros entry' He'.
      assert (entry' = entry) by congruence. subst. exact Hstale.
    + apply stale_entries_lookup. tauto.
Qed.

Lemma validity_is_uniform_witness :
  result (CacheManager.get "users/octocat" None) (world_at 301000) = Return JNull /\
  cache (after CacheManager.cleanup (world_at 301000)) !! "users/octocat:" = None /\
  stale_entries (world_at 301000) !! "users/octocat:"
  = Some {| data := octocat; timestamp := 1000 |}.
Proof.
  apply (validity_is_uniform (world_at 301000) "users/octocat" None
           {| data := octocat; timestamp := 1000 |}).
  - apply lookup_singleton_eq.
  - reflexivity.
Defined.

(** ** The error normaliser *)

Lemma code_is_eq (code : option string) (c : string) :
  code_is code c = true <-> code = Some c.
Proof.
  destruct code as [c'|]; cbn; [|split; discriminate].
  rewrite String.eqb_eq. split; congruence.
Qed.

Lemma code_is_transport (error : AxiosError.t) :
  ~ transport_failure error ->
  code_is (AxiosError.code error) "ECONNABORTED" = false /\
  code_is (AxiosError.code error) "ENOTFOUND" = false /\
  code_is (AxiosError.code error) "EAI_AGAIN" = false.
Proof.
  unfold transport_failure. intros Hnot.
  repeat split; apply not_true_is_false; rewrite code_is_eq; tauto.
Qed.

(** C5. Applied to a raw failure, [handleError] throws exactly one error
    and changes nothing else.  For a timeout of the transport the message
    carries the configured timeout, 10000 ms.  For a response that came
    back with a status code, the status code and the raw body are attached
    to the error whatever the code is, and the message is the rate-limit
    one for 403, the not-found one for 404 and the server-unavailable one
    for 500. *)
Theorem handleError_normalises (error : AxiosError.t) :
  exists apiError : APIError.t,
    (forall w : World, GitHubAPIClient.handleError error w = (Throw apiError, w)) /\
    (AxiosError.code error = Some "ECONNABORTED" ->
     APIError.message apiError = "Request timeout: The request took longer than 10000ms" /\
     includes (APIError.message apiError) (pretty GitHubAPIClient.timeout +:+ "ms") = true) /\
    (forall response : AxiosError.Response,
       http_failure error response ->
       APIError.statusCode apiError = Some (AxiosError.status response) /\
       APIError.response apiError = Some (AxiosError.data response) /\
       (AxiosError.status response = 403%Z ->
        APIError.message apiError =
        "Rate limit exceeded: GitHub API rate limit reached. Please try again later.") /\
       (AxiosError.status response = 404%Z ->
        APIError.message apiError = "Not Found: The requested resource does not exist") /\
       (AxiosError.status response = 500%Z ->
        APIError.message apiError = "Server Error: GitHub API is currently unavailable")).
Proof.
  unfold GitHubAPIClient.handleError.
  destruct (code_is (AxiosError.code error) "ECONNABORTED") eqn:Habort.
  { eexists. split; [intros w; reflexivity|]. split.
    - intros _. split; [reflexivity|]. vm_compute. reflexivity.
    - intros response [Hnot _]. exfalso. apply Hnot. left. apply code_is_eq. exact Habort. }
  assert (Hnabort : AxiosError.code error <> Some "ECONNABORTED").
  { intros Hc. apply code_is_eq in Hc. congruence. }
  destruct (code_is (AxiosError.code error) "ENOTFOUND"
            || code_is (AxiosError.code error) "EAI_AGAIN") eqn:Hdns.
  { eexists. split; [intros w; reflexivity|]. split; [intros Hc; contradiction|].
    intros response [Hnot _]. exfalso. apply Hnot. right.
    apply orb_true_iff in Hdns as [Hc|Hc]; apply code_is_eq in Hc; tauto. }
  destruct (AxiosError.response error) as [response|] eqn:Hresp.
  2:{ eexists. split; [intros w; reflexivity|]. split; [intros Hc; contradiction|].
      intros response [_ Hr]. rewrite Hresp in Hr. discriminate Hr. }
  eexists. split; [intros w; reflexivity|]. split; [intros Hc; contradiction|].
  intros response' [_ Hr]. rewrite Hresp in Hr. injection Hr as <-.
  cbn [APIError.statusCode APIError.response APIError.message GitHubAPIClient.with_message].
  split; [reflexivity|]. split; [reflexivity|].
  repeat split; intros ->; reflexivity.
Qed.

Lemma handleError_normalises_witness :
  exists apiError : APIError.t,
    GitHubAPIClient.handleError
      {| AxiosError.code := Some "ERR_BAD_REQUEST";
         AxiosError.message := "Request failed with status code 403";
         AxiosError.response :=
           Some {| AxiosError.status := 403; AxiosError.data := JStr "slow down" |} |}
      (world_at 0)
    = (Throw apiError, world_at 0) /\
    APIError.statusCode apiError = Some 403%Z /\
    APIError.response apiError = Some (JStr "slow down") /\
    APIError.message apiError =
    "Rate limit exceeded: GitHub API rate limit reached. Please try again later.".
Proof.
  destruct (handleError_normalises
              {| AxiosError.code := Some "ERR_BAD_REQUEST";
                 AxiosError.message := "Request failed with status code 403";
                 AxiosError.response :=
                   Some {| AxiosError.status := 403; AxiosError.data := JStr "slow down" |} |})
    as (apiError & Hthrow & _ & Hhttp).
  exists apiError.
  destruct (Hhttp {| AxiosError.status := 403; AxiosError.data := JStr "slow down" |})
    as (Hstatus & Hbody & H403 & _).
  - split; [|reflexivity]. unfold transport_failure.
    cbn [AxiosError.code]. intros [H|[H|H]]; inversion H.
  - split; [apply Hthrow|]. split; [exact Hstatus|]. split; [exact Hbody|].
    apply H403. reflexivity.
Defined.

(** ** The response validator *)

Lemma structured_guard (data : JValue) :
  negb (truthy data) || negb (typeof_object data) = false <-> structured data.
Proof.
  destruct data as [| |b|n|s|items|props]; cbn; try tauto;
    try (split; [discriminate|contradiction]).
  - destruct b; cbn; split; try discriminate; contradiction.
  - destruct n as [|z]; cbn; [split; [discriminate|contradiction]|].
    rewrite orb_true_r. split; [discriminate|contradiction].
  - rewrite orb_true_r. split; [discriminate|contradiction].
Qed.

Lemma check_fields_present (h : Host) (data : JValue) (fields : list string) (w : World) :
  (forall f, f ∈ fields -> GitHubAPIClient.in_operator h f data = true) ->
  GitHubAPIClient.check_fields h data fields w = (Return tt, w).
Proof.
  induction fields as [|f fields IH]; intros Hall; [reflexivity|].
  cbn [GitHubAPIClient.check_fields]. rewrite (Hall f) by left. cbn [negb].
  apply IH. intros f' Hf'. apply Hall. right. exact Hf'.
Qed.

Lemma check_fields_missing (h : Host) (data : JValue)
    (before : list string) (field : string) (rest : list string) (w : World) :
  (forall f, f ∈ before -> GitHubAPIClient.in_operator h f data = true) ->
  GitHubAPIClient.in_operator h field data = false ->
  GitHubAPIClient.check_fields h data (before ++ field :: rest)%list w
  = (Throw (missing_field field), w).
Proof.
  induction before as [|f before IH]; intros Hall Hmiss.
  - cbn [app GitHubAPIClient.check_fields]. rewrite Hmiss. reflexivity.
  - cbn [app GitHubAPIClient.check_fields]. rewrite (Hall f) by left. cbn [negb].
    apply IH; [|exact Hmiss]. intros f' Hf'. apply Hall. right. exact Hf'.
Qed.

Lemma has_own_member (props : Params) (name : string) (value : JValue) :
  (name, value) ∈ props -> has_own name (JObj props) = true.
Proof.
  intros Hin. cbn [has_own]. apply existsb_exists. exists name.
  split; [|apply String.eqb_refl].
  apply list_elem_of_In. apply (list_elem_of_fmap_2 fst) in Hin. exact Hin.
Qed.

(** C6 (as amended). For a payload that is a structured object (an object
    or an array), the validator throws the validation error that names the
    first required field the payload lacks when there is one, and returns
    the payload unchanged when every required field is present; a member
    whose value is null is present.  Presence is JavaScript's [in]: an own
    member or a name found on the prototype chain.  A payload that is not a
    structured object is rejected with the shape error, whatever the
    required fields. *)
Theorem validateResponse_checks_presence
    (h : Host) (data : JValue) (requiredFields : list string) :
  (structured data -> names_first_missing h data requiredFields) /\
  (structured data ->
   (forall f, f ∈ requiredFields -> GitHubAPIClient.in_operator h f data = true) ->
   forall w : World,
     GitHubAPIClient.validateResponse h data requiredFields w = (Return data, w)) /\
  (~ structured data ->
   forall w : World,
     GitHubAPIClient.validateResponse h data requiredFields w
     = (Throw (APIError.Error "Invalid response: Expected object but received invalid data"),
        w)) /\
  (forall (props : Params) (name : string),
     (name, JNull) ∈ props -> GitHubAPIClient.in_operator h name (JObj props) = true).
Proof.
  unfold GitHubAPIClient.validateResponse. split; [|split; [|split]].
  - intros Hs before field rest w -> Hall Hmiss.
    unfold GitHubAPIClient.validateResponse.
    apply structured_guard in Hs. rewrite Hs.
    unfold bind. rewrite (check_fields_missing h data before field rest w Hall Hmiss).
    reflexivity.
  - intros Hs Hall w. apply structured_guard in Hs. rewrite Hs.
    unfold bind. rewrite (check_fields_present h data requiredFields w Hall). reflexivity.
  - intros Hns w.
    destruct (negb (truthy data) || negb (typeof_object data)) eqn:Hguard; [reflexivity|].
    apply structured_guard in Hguard. contradiction.
  - intros props name Hin. unfold GitHubAPIClient.in_operator.
    rewrite (has_own_member props name JNull Hin). reflexivity.
Qed.

Lemma validateResponse_checks_presence_witness :
  GitHubAPIClient.validateResponse sample_host octocat ["login"; "id"; "avatar_url"; "name"]
    (world_at 0)
  = (Throw (missing_field "avatar_url"), world_at 0) /\
  GitHubAPIClient.validateResponse sample_host octocat ["login"; "id"; "name"] (world_at 0)
  = (Return octocat, world_at 0).
Proof.
  split.
  - apply (proj1 (validateResponse_checks_presence sample_host octocat
                    ["login"; "id"; "avatar_url"; "name"]) I
             ["login"; "id"] "avatar_url" ["name"] (world_at 0)).
    + reflexivity.
    + intros f Hf. apply elem_of_cons in Hf as [->|Hf]; [reflexivity|].
      apply elem_of_cons in Hf as [->|Hf]; [reflexivity|].
      apply elem_of_nil in Hf. contradiction.
    + reflexivity.
  - apply (proj1 (proj2 (validateResponse_checks_presence sample_host octocat
                           ["login"; "id"; "name"])) I).
    intros f Hf. apply elem_of_cons in Hf as [->|Hf]; [reflexivity|].
    apply elem_of_cons in Hf as [->|Hf]; [reflexivity|].
    apply elem_of_cons in Hf as [->|Hf]; [reflexivity|].
    apply elem_of_nil in Hf. contradiction.
Defined.

(** C6 (as stated) fails for a payload that is not a structured object:
    [null] lacks the required field [login], and the error thrown is the
    shape error, which does not name the field. *)
Lemma validateResponse_shape_counterexample :
  ~ names_first_missing sample_host JNull ["login"].
Proof.
  intros Hclaim.
  specialize (Hclaim [] "login" [] (world_at 0) eq_refl).
  assert (Hthrow : GitHubAPIClient.validateResponse sample_host JNull ["login"] (world_at 0)
                   = (Throw (missing_field "login"), world_at 0)).
  { apply Hclaim; [|reflexivity]. intros f Hf. apply elem_of_nil in Hf. contradiction. }
  vm_compute in Hthrow. discriminate Hthrow.
Qed.

(** ** Filtering *)

Lemma filter_filter_and {A : Type} (f g : A -> bool) (l : list A) :
  List.filter g (List.filter f l) = List.filter (fun x => f x && g x) l.
Proof.
  induction l as [|x l IH]; [reflexivity|].
  cbn [List.filter]. destruct (f x); cbn [List.filter andb]; rewrite IH; reflexivity.
Qed.

Lemma filter_all {A : Type} (l : list A) : List.filter (fun _ => true) l = l.
Proof. induction l as [|x l IH]; [reflexivity|]. cbn. rewrite IH. reflexivity. Qed.

Lemma filter_optional {A B : Type} (o : option B) (f : B -> A -> bool) (l : list A) :
  match o with
  | Some b => List.filter (f b) l
  | None => l
  end
  = List.filter (fun x => match o with Some b => f b x | None => true end) l.
Proof. destruct o; [reflexivity|]. symmetry. apply filter_all. Qed.

Lemma filterRepositories_applied (h : Host) (repositories : list GitHubRepository.t)
    (filters : FilterOptions.t) :
  DataService.filterRepositories h repositories filters
  = List.filter (meets_applied h filters) repositories.
Proof.
  unfold DataService.filterRepositories. cbv zeta.
  rewrite (filter_optional (FilterOptions.archived filters)
             (fun archived repo => Bool.eqb (GitHubRepository.archived repo) archived)).
  rewrite (filter_optional (FilterOptions.maxStars filters)
             (fun maxStars repo => js_le (GitHubRepository.stargazers_count repo) maxStars)).
  rewrite (filter_optional (FilterOptions.minStars filters)
             (fun minStars repo => js_ge (GitHubRepository.stargazers_count repo) minStars)).
  rewrite !filter_filter_and.
  assert (Hlang :
    (if DataService.truthy_string (FilterOptions.language filters)
     then List.filter
            (fun repo =>
               DataService.strict_eq
                 (DataService.optional_toLowerCase h (GitHubRepository.language repo))
                 (DataService.optional_toLowerCase h (FilterOptions.language filters)))
            repositories
     else repositories)
    = List.filter
        (fun repo =>
           match FilterOptions.language filters with
           | Some lang => if String.eqb lang "" then true else language_matches h lang repo
           | None => true
           end) repositories).
  { destruct (FilterOptions.language filters) as [lang|]; cbn [DataService.truthy_string].
    - destruct (String.eqb lang ""); cbn [negb]; [symmetry; apply filter_all|reflexivity].
    - symmetry. apply filter_all. }
  rewrite Hlang, filter_filter_and.
  apply List.filter_ext. intros repo. unfold meets_applied, stars_criteria.
  rewrite !andb_assoc. reflexivity.
Qed.

(** C8 (as amended). For every input list and criteria, [filterRepositories]
    returns exactly the elements, in their order, that satisfy the
    conjunction of the criteria: language as case-insensitive equality if a
    language was supplied and is not the empty string, minStars as an
    inclusive lower bound if supplied, maxStars as an inclusive upper bound
    if supplied, archived as boolean equality if supplied.  When the
    language criterion is absent or not empty this is the conjunction of
    every supplied criterion.  With minStars 100 and maxStars 500, a list
    with star counts 50, 100, 300, 500, 900 gives exactly the items with
    100, 300 and 500 stars. *)
Theorem filterRepositories_conjunction
    (h : Host) (repositories : list GitHubRepository.t) (filters : FilterOptions.t) :
  DataService.filterRepositories h repositories filters
  = List.filter (meets_applied h filters) repositories /\
  (FilterOptions.language filters <> Some "" ->
   DataService.filterRepositories h repositories filters
   = List.filter (meets_supplied h filters) repositories) /\
  DataService.filterRepositories h (repo_with_stars <$> [50; 100; 300; 500; 900]%Z)
    stars_100_500
  = repo_with_stars <$> [100; 300; 500]%Z.
Proof.
  split; [apply filterRepositories_applied|]. split; [|reflexivity].
  intros Hlang. rewrite filterRepositories_applied.
  apply List.filter_ext. intros repo. unfold meets_applied, meets_supplied.
  destruct (FilterOptions.language filters) as [lang|]; [|reflexivity].
  destruct (String.eqb_spec lang ""); [congruence|reflexivity].
Qed.

Lemma filterRepositories_conjunction_witness :
  DataService.filterRepositories sample_host (repo_with_stars <$> [50; 900]%Z) no_filter
  = List.filter (meets_supplied sample_host no_filter) (repo_with_stars <$> [50; 900]%Z).
Proof.
  apply (proj1 (proj2 (filterRepositories_conjunction sample_host
                         (repo_with_stars <$> [50; 900]%Z) no_filter))).
  cbn. discriminate.
Defined.

(** C8 (as stated) fails for an empty language: the criterion is supplied,
    no repository written in Go meets it, and the filter keeps them all. *)
Lemma filterRepositories_empty_language_counterexample :
  DataService.filterRepositories sample_host [repo_with_stars 50] empty_language
  <> List.filter (meets_supplied sample_host empty_language) [repo_with_stars 50].
Proof. vm_compute. discriminate. Qed.

(** ** The data service *)

Lemma handleError_throws (error : AxiosError.t) :
  exists apiError : APIError.t,
    forall w : World, GitHubAPIClient.handleError error w = (Throw apiError, w).
Proof.
  unfold GitHubAPIClient.handleError.
  destruct (code_is (AxiosError.code error) "ECONNABORTED"); [eexists; reflexivity|].
  destruct (code_is (AxiosError.code error) "ENOTFOUND"
            || code_is (AxiosError.code error) "EAI_AGAIN"); [eexists; reflexivity|].
  destruct (AxiosError.response error); eexists; reflexivity.
Qed.

Lemma axiosInstance_get_sent (h : Host) (url : string) (query : option Params) (w : World) :
  exists o : Outcome JValue,
    GitHubAPIClient.axiosInstance_get h url query w = (o, sent h url query w).
Proof.
  unfold GitHubAPIClient.axiosInstance_get, sent, bind, emit, Date_now, elapse, after.
  cbn [fst snd now].
  destruct (fst (remote h url query (now w))) as [error|data].
  - destruct (handleError_throws error) as [apiError Hthrow].
    rewrite Hthrow. eexists. reflexivity.
  - eexists. reflexivity.
Qed.

(** Validation and the checks after it leave the state alone. *)
Lemma validateResponse_world (h : Host) (data : JValue) (fields : list string) (w : World) :
  snd (GitHubAPIClient.validateResponse h data fields w) = w.
Proof.
  unfold GitHubAPIClient.validateResponse.
  destruct (negb (truthy data) || negb (typeof_object data)); [reflexivity|].
  unfold bind.
  assert (Hcheck : snd (GitHubAPIClient.check_fields h data fields w) = w).
  { induction fields as [|f fields IH]; [reflexivity|].
    cbn [GitHubAPIClient.check_fields].
    destruct (negb (GitHubAPIClient.in_operator h f data)); [reflexivity|exact IH]. }
  destruct (GitHubAPIClient.check_fields h data fields w) as [[[]|e] w']; cbn in *; congruence.
Qed.

Lemma rethrow_world {A : Type} (body : M A) (handler : APIError.t -> M A) (w : World) :
  (forall e w', handler e w' = (Throw e, w')) ->
  try_catch body handler w = body w.
Proof.
  intros Hh. unfold try_catch. destruct (body w) as [[a|e] w']; [reflexivity|apply Hh].
Qed.

Lemma searchRepositories_sent (h : Host) (query sort : string) (perPage : Num) (w : World) :
  snd (GitHubAPIClient.searchRepositories h query sort perPage w)
  = sent h "/search/repositories"
      (Some [("q", JStr query); ("sort", JStr sort); ("order", JStr "desc");
             ("per_page", JNum perPage)]) w.
Proof.
  unfold GitHubAPIClient.searchRepositories. rewrite rethrow_world.
  2:{ intros e w'. destruct (includes (APIError.message e) "Invalid response"); reflexivity. }
  unfold bind at 1.
  destruct (axiosInstance_get_sent h "/search/repositories"
              (Some [("q", JStr query); ("sort", JStr sort); ("order", JStr "desc");
                     ("per_page", JNum perPage)]) w) as [[data|e] ->]; [|reflexivity].
  unfold bind.
  pose proof (validateResponse_world h data ["items"; "total_count"]
                (sent h "/search/repositories"
                   (Some [("q", JStr query); ("sort", JStr sort); ("order", JStr "desc");
                          ("per_page", JNum perPage)]) w)) as Hv.
  destruct (GitHubAPIClient.validateResponse h data ["items"; "total_count"] _)
    as [[validated|e] w']; cbn [snd] in Hv; subst w'; [|reflexivity].
  destruct (negb (isArray (member validated "items"))); reflexivity.
Qed.

Lemma getRepository_sent (h : Host) (owner repo : string) (w : World) :
  snd (GitHubAPIClient.getRepository h owner repo w)
  = sent h ("/repos/" +:+ owner +:+ "/" +:+ repo) None w.
Proof.
  unfold GitHubAPIClient.getRepository. rewrite rethrow_world by reflexivity.
  unfold bind.
  destruct (axiosInstance_get_sent h ("/repos/" +:+ owner +:+ "/" +:+ repo) None w)
    as [[data|e] ->]; [|reflexivity].
  apply validateResponse_world.
Qed.

Lemma getUser_sent (h : Host) (username : string) (w : World) :
  snd (GitHubAPIClient.getUser h username w) = sent h ("/users/" +:+ username) None w.
Proof.
  unfold GitHubAPIClient.getUser. rewrite rethrow_world by reflexivity.
  unfold bind.
  destruct (axiosInstance_get_sent h ("/users/" +:+ username) None w)
    as [[data|e] ->]; [|reflexivity].
  apply validateResponse_world.
Qed.

Lemma getUserRepositories_sent (h : Host) (username sort : string) (perPage : Num)
    (w : World) :
  snd (GitHubAPIClient.getUserRepositories h username sort perPage w)
  = sent h ("/users/" +:+ username +:+ "/repos")
      (Some [("sort", JStr sort); ("per_page", JNum perPage)]) w.
Proof.
  unfold GitHubAPIClient.getUserRepositories. rewrite rethrow_world by reflexivity.
  unfold bind.
  destruct (axiosInstance_get_sent h ("/users/" +:+ username +:+ "/repos")
              (Some [("sort", JStr sort); ("per_page", JNum perPage)]) w)
    as [[data|e] ->]; [|reflexivity].
  destruct (negb (isArray data)); reflexivity.
Qed.

Lemma get_after (endpoint : string) (params : option Params) (w : World) :
  cache (after (CacheManager.get endpoint params) w) = cache w /\
  cacheFile (after (CacheManager.get endpoint params) w) = cacheFile w /\
  writes (after (CacheManager.get endpoint params) w) = writes w /\
  requests (after (CacheManager.get endpoint params) w) = requests w.
Proof.
  unfold after. rewrite get_run.
  destruct (cache w !! CacheManager.generateKey endpoint params) as [entry|]; [|auto].
  destruct (bool_decide (fresh w entry)); auto.
Qed.

Lemma sent_after (h : Host) (url : string) (query : option Params) (w : World) :
  cache (sent h url query w) = cache w /\
  cacheFile (sent h url query w) = cacheFile w /\
  writes (sent h url query w) = writes w /\
  requests (sent h url query w) = HttpGet url query :: requests w.
Proof. unfold sent, after, elapse, emit. cbn. auto. Qed.

Lemma set_after (endpoint : string) (payload : JValue) (params : option Params) (w : World) :
  CacheManager.set endpoint payload params w
  = (Return tt, after (CacheManager.set endpoint payload params) w) /\
  writes (after (CacheManager.set endpoint payload params) w)
  = WriteFile (cacheFile w) (cache (after (CacheManager.set endpoint payload params) w))
      :: writes w.
Proof.
  unfold after. rewrite set_run, saveCache_run. split; [reflexivity|].
  unfold writes, cache_assign, with_cache. cbn.
  destruct (disk_ok w); reflexivity.
Qed.

Lemma structured_truthy (data : JValue) : structured data -> truthy data = true.
Proof. destruct data; cbn; tauto. Qed.

Lemma cached_read_contract (h : Host) (endpoint : string) (params : option Params)
    (fetch : M JValue) (url : string) (query : option Params) :
  (forall w : World, snd (fetch w) = sent h url query w) ->
  cache_then_fetch h (cached_read endpoint params fetch) endpoint params fetch url query.
Proof.
  intros Hsent w. cbv zeta.
  destruct (get_after endpoint params w) as (Hc1 & Hf1 & Hw1 & Hr1).
  pose proof (get_run endpoint params w) as Hget.
  set (w1 := after (CacheManager.get endpoint params) w) in *.
  assert (Hop : forall v : JValue,
            CacheManager.get endpoint params w = (Return v, w1) ->
            cached_read endpoint params fetch w =
            if truthy v then (Return v, w1)
            else match fetch w1 with
                 | (Return data, w2) =>
                     (Return data, after (CacheManager.set endpoint data params) w2)
                 | (Throw e, w2) => (Throw e, w2)
                 end).
  { intros v Hv. unfold cached_read, bind at 1. rewrite Hv.
    destruct (truthy v); [reflexivity|].
    unfold bind at 1. destruct (fetch w1) as [[data|e] w2]; [|reflexivity].
    unfold bind. rewrite (proj1 (set_after endpoint data params w2)). reflexivity. }
  assert (Hpair : exists v : JValue,
            CacheManager.get endpoint params w = (Return v, w1) /\
            (truthy v = true ->
             exists entry : CacheEntry,
               cache w !! CacheManager.generateKey endpoint params = Some entry /\
               fresh w entry /\ v = data entry) /\
            (forall entry : CacheEntry,
               cache w !! CacheManager.generateKey endpoint params = Some entry ->
               fresh w entry -> v = data entry)).
  { unfold w1, after. rewrite Hget.
    destruct (cache w !! CacheManager.generateKey endpoint params) as [entry|].
    - destruct (bool_decide (fresh w entry)) eqn:Hfresh.
      + apply bool_decide_eq_true_1 in Hfresh. eexists. split; [reflexivity|]. split.
        * intros _. exists entry. auto.
        * intros entry' [= <-] _. reflexivity.
      + apply bool_decide_eq_false_1 in Hfresh. eexists. split; [reflexivity|]. split.
        * discriminate.
        * intros entry' [= <-] Hf. contradiction.
    - eexists. split; [reflexivity|]. split; [discriminate|]. intros entry' [=]. }
  destruct Hpair as (v & Hv & Htruthy & Hvalid).
  specialize (Hop v Hv).
  assert (Hcached : result (CacheManager.get endpoint params) w = Return v).
  { unfold result. rewrite Hv. reflexivity. }
  rewrite Hcached.
  destruct (sent_after h url query w1) as (Hc2 & Hf2 & Hw2 & Hr2).
  split; [|split].
  - intros payload [= <-] Ht. rewrite Ht in Hop. auto.
  - intros entry Hlook Hfresh Hstruct.
    rewrite (Hvalid entry Hlook Hfresh). split; [reflexivity|].
    apply structured_truthy. exact Hstruct.
  - intros v' [= <-] Hfalsy. rewrite Hfalsy in Hop.
    assert (Hw2' : after fetch w1 = sent h url query w1) by apply Hsent.
    rewrite !Hw2'.
    assert (Hfetch : fetch w1 = (result fetch w1, sent h url query w1)).
    { rewrite <- Hw2'. unfold result, after. apply surjective_pairing. }
    rewrite Hfetch in Hop.
    split; [rewrite Hr2, Hr1; reflexivity|]. split.
    + intros e He. rewrite He in Hop. rewrite Hop, Hc2, Hw2. auto.
    + intros payload Hp. rewrite Hp in Hop.
      assert (Hafter : after (cached_read endpoint params fetch) w
                       = after (CacheManager.set endpoint payload params)
                           (sent h url query w1)).
      { unfold after at 1. rewrite Hop. reflexivity. }
      rewrite Hafter. split; [exact Hop|].
      rewrite set_cache, Hc2, Hc1. split; [reflexivity|].
      rewrite (proj2 (set_after endpoint payload params (sent h url query w1))).
      rewrite set_cache, Hc2, Hc1, Hf2, Hf1, Hw2, Hw1. reflexivity.
Qed.

(** ** What the service puts in the store *)

Lemma validateResponse_returns (h : Host) (data payload : JValue) (fields : list string)
    (w : World) :
  result (GitHubAPIClient.validateResponse h data fields) w = Return payload ->
  payload = data /\ structured data.
Proof.
  unfold result, GitHubAPIClient.validateResponse.
  destruct (negb (truthy data) || negb (typeof_object data)) eqn:Hguard; [discriminate|].
  apply structured_guard in Hguard. unfold bind.
  destruct (GitHubAPIClient.check_fields h data fields w) as [[[]|e] w'];
    cbn; [|discriminate].
  intros [= <-]. auto.
Qed.

Lemma isArray_structured (data : JValue) : isArray data = true -> structured data.
Proof. destruct data; cbn; try discriminate; auto. Qed.

Lemma try_catch_rethrow {A : Type} (body : M A) (w : World) :
  try_catch body (fun error => throw error) w = body w.
Proof. apply rethrow_world. reflexivity. Qed.

(** The four client operations return objects or arrays only. *)
Lemma client_payload_structured
    (h : Host) (query sort owner repo username : string) (perPage : Num)
    (w : World) (payload : JValue) :
  (result (GitHubAPIClient.searchRepositories h query sort perPage) w = Return payload ->
   structured payload) /\
  (result (GitHubAPIClient.getRepository h owner repo) w = Return payload ->
   structured payload) /\
  (result (GitHubAPIClient.getUser h username) w = Return payload ->
   structured payload) /\
  (result (GitHubAPIClient.getUserRepositories h username sort perPage) w = Return payload ->
   structured payload).
Proof.
  unfold result. split; [|split; [|split]].
  - unfold GitHubAPIClient.searchRepositories. rewrite rethrow_world.
    2:{ intros e w'. destruct (includes (APIError.message e) "Invalid response"); reflexivity. }
    unfold bind at 1.
    destruct (GitHubAPIClient.axiosInstance_get h _ _ w) as [[data|e] w1]; [|discriminate].
    unfold bind.
    destruct (GitHubAPIClient.validateResponse h data _ w1) as [[validated|e] w2];
      [|discriminate].
    destruct (isArray (member validated "items")) eqn:Harr; cbn [negb]; [|discriminate].
    intros [= <-]. apply isArray_structured. exact Harr.
  - unfold GitHubAPIClient.getRepository. rewrite try_catch_rethrow. unfold bind.
    destruct (GitHubAPIClient.axiosInstance_get h _ _ w) as [[data|e] w1]; [|discriminate].
    intros Hv. destruct (validateResponse_returns h data payload _ w1 Hv) as [-> Hs].
    exact Hs.
  - unfold GitHubAPIClient.getUser. rewrite try_catch_rethrow. unfold bind.
    destruct (GitHubAPIClient.axiosInstance_get h _ _ w) as [[data|e] w1]; [|discriminate].
    intros Hv. destruct (validateResponse_returns h data payload _ w1 Hv) as [-> Hs].
    exact Hs.
  - unfold GitHubAPIClient.getUserRepositories. rewrite try_catch_rethrow. unfold bind.
    destruct (GitHubAPIClient.axiosInstance_get h _ _ w) as [[data|e] w1]; [|discriminate].
    destruct (isArray data) eqn:Harr; cbn [negb]; [|discriminate].
    intros [= <-]. apply isArray_structured. exact Harr.
Qed.

Section StoreInvariant.
Variable h : Host.
Variables (endpoint url : string) (params query : option Params) (fetch : M JValue).
Hypothesis fetch_sent : forall w : World, snd (fetch w) = sent h url query w.
Hypothesis fetch_structured :
  forall (w : World) (payload : JValue),
    result fetch w = Return payload -> structured payload.

(** In a store of structured payloads, the read hits exactly when an
    entry is under the key and within its window. *)
Lemma hit_iff_fresh_entry (w : World) :
  structured_store w ->
  (exists payload : JValue,
     result (CacheManager.get endpoint params) w = Return payload /\
     truthy payload = true)
  <-> exists entry : CacheEntry,
        cache w !! CacheManager.generateKey endpoint params = Some entry /\
        fresh w entry.
Proof.
  intros Hstore. unfold result. rewrite get_run.
  destruct (cache w !! CacheManager.generateKey endpoint params) as [entry|] eqn:Hlook.
  - destruct (bool_decide (fresh w entry)) eqn:Hfresh.
    + apply bool_decide_eq_true_1 in Hfresh. split.
      * intros _. exists entry. auto.
      * intros _. exists (data entry). split; [reflexivity|].
        apply structured_truthy. apply (Hstore _ _ Hlook).
    + apply bool_decide_eq_false_1 in Hfresh. split.
      * intros (payload & [= <-] & Ht). discriminate Ht.
      * intros (entry' & [= <-] & Hf). contradiction.
  - split.
    + intros (payload & [= <-] & Ht). discriminate Ht.
    + intros (entry' & [=] & _).
Qed.

(** The read keeps the store structured. *)
Lemma cached_read_keeps_structured (w : World) :
  structured_store w ->
  structured_store (after (cached_read endpoint params fetch) w).
Proof.
  intros Hstore.
  destruct (cached_read_contract h endpoint params fetch url query fetch_sent w)
    as (Hhit & _ & Hmiss).
  destruct (get_after endpoint params w) as (Hc1 & _).
  destruct (result (CacheManager.get endpoint params) w) as [v|e] eqn:Hget.
  2:{ unfold result in Hget. rewrite get_run in Hget.
      destruct (cache w !! CacheManager.generateKey endpoint params) as [entry|];
        [destruct (bool_decide (fresh w entry))|]; discriminate Hget. }
  destruct (truthy v) eqn:Ht.
  - destruct (Hhit v eq_refl Ht) as (Hop & _). unfold after at 1. rewrite Hop. cbn [snd].
    intros k entry. rewrite Hc1. apply Hstore.
  - destruct (Hmiss v eq_refl Ht) as (_ & Hfail & Hok).
    destruct (result fetch (after (CacheManager.get endpoint params) w))
      as [payload|e] eqn:Hfetch.
    + destruct (Hok payload eq_refl) as (_ & Hcache & _).
      intros k entry. rewrite Hcache.
      destruct (decide (CacheManager.generateKey endpoint params = k)) as [<-|Hne].
      * rewrite lookup_insert_eq. intros [= <-]. cbn [data].
        apply (fetch_structured _ _ Hfetch).
      * rewrite lookup_insert_ne by exact Hne. apply Hstore.
    + destruct (Hfail e eq_refl) as (Hop & Hcache & _).
      unfold after at 1. rewrite Hop. cbn [snd].
      intros k entry. rewrite Hcache. apply Hstore.
Qed.
End StoreInvariant.

Lemma dataService_keeps_structured
    (h : Host) (query sort owner repo username : string) (perPage : Num) (w : World) :
  structured_store w ->
  structured_store (after (DataService.searchRepositories h query sort perPage) w) /\
  structured_store (after (DataService.getRepository h owner repo) w) /\
  structured_store (after (DataService.getUser h username) w) /\
  structured_store (after (DataService.getUserRepositories h username sort perPage) w).
Proof.
  intros Hstore. split; [|split; [|split]].
  - apply (cached_read_keeps_structured h "search/repositories" "/search/repositories"
             (Some [("q", JStr query); ("sort", JStr sort); ("per_page", JNum perPage)])
             (Some [("q", JStr query); ("sort", JStr sort); ("order", JStr "desc");
                    ("per_page", JNum perPage)])
             (GitHubAPIClient.searchRepositories h query sort perPage));
      [apply searchRepositories_sent| |exact Hstore].
    intros w' payload.
    apply (client_payload_structured h query sort owner repo username perPage w' payload).
  - apply (cached_read_keeps_structured h ("repos/" +:+ owner +:+ "/" +:+ repo)
             ("/repos/" +:+ owner +:+ "/" +:+ repo) None None
             (GitHubAPIClient.getRepository h owner repo));
      [apply getRepository_sent| |exact Hstore].
    intros w' payload.
    apply (client_payload_structured h query sort owner repo username perPage w' payload).
  - apply (cached_read_keeps_structured h ("users/" +:+ username) ("/users/" +:+ username)
             None None (GitHubAPIClient.getUser h username));
      [apply getUser_sent| |exact Hstore].
    intros w' payload.
    apply (client_payload_structured h query sort owner repo username perPage w' payload).
  - apply (cached_read_keeps_structured h ("users/" +:+ username +:+ "/repos")
             ("/users/" +:+ username +:+ "/repos")
             (Some [("sort", JStr sort); ("per_page", JNum perPage)])
             (Some [("sort", JStr sort); ("per_page", JNum perPage)])
             (GitHubAPIClient.getUserRepositories h username sort perPage));
      [apply getUserRepositories_sent| |exact Hstore].
    intros w' payload.
    apply (client_payload_structured h query sort owner repo username perPage w' payload).
Qed.

(** C3. Each of the four read operations of the data service follows the
    cache-then-fetch contract.  On a hit, the payload that the cache holds
    under the derived key, within its window, is returned as it is, no
    request is made and nothing is written.  On a miss the client operation
    is run, which makes its one request; if it fails, the same error reaches
    the caller and the cache and the file are as before; if it succeeds,
    [set] stores the fetched payload under the key and writes the file, and
    that payload is returned. *)
Theorem dataService_cache_then_fetch
    (h : Host) (query sort owner repo username : string) (perPage : Num) :
  cache_then_fetch h (DataService.searchRepositories h query sort perPage)
    "search/repositories"
    (Some [("q", JStr query); ("sort", JStr sort); ("per_page", JNum perPage)])
    (GitHubAPIClient.searchRepositories h query sort perPage)
    "/search/repositories"
    (Some [("q", JStr query); ("sort", JStr sort); ("order", JStr "desc");
           ("per_page", JNum perPage)]) /\
  cache_then_fetch h (DataService.getRepository h owner repo)
    ("repos/" +:+ owner +:+ "/" +:+ repo) None
    (GitHubAPIClient.getRepository h owner repo)
    ("/repos/" +:+ owner +:+ "/" +:+ repo) None /\
  cache_then_fetch h (DataService.getUser h username)
    ("users/" +:+ username) None
    (GitHubAPIClient.getUser h username)
    ("/users/" +:+ username) None /\
  cache_then_fetch h (DataService.getUserRepositories h username sort perPage)
    ("users/" +:+ username +:+ "/repos")
    (Some [("sort", JStr sort); ("per_page", JNum perPage)])
    (GitHubAPIClient.getUserRepositories h username sort perPage)
    ("/users/" +:+ username +:+ "/repos")
    (Some [("sort", JStr sort); ("per_page", JNum perPage)]).
Proof.
  split; [|split; [|split]].
  - apply (cached_read_contract h "search/repositories"
             (Some [("q", JStr query); ("sort", JStr sort); ("per_page", JNum perPage)])
             (GitHubAPIClient.searchRepositories h query sort perPage)).
    apply searchRepositories_sent.
  - apply (cached_read_contract h ("repos/" +:+ owner +:+ "/" +:+ repo) None
             (GitHubAPIClient.getRepository h owner repo)).
    apply getRepository_sent.
  - apply (cached_read_contract h ("users/" +:+ username) None
             (GitHubAPIClient.getUser h username)).
    apply getUser_sent.
  - apply (cached_read_contract h ("users/" +:+ username +:+ "/repos")
             (Some [("sort", JStr sort); ("per_page", JNum perPage)])
             (GitHubAPIClient.getUserRepositories h username sort perPage)).
    apply getUserRepositories_sent.
Qed.

Lemma dataService_cache_then_fetch_witness :
  DataService.getUser sample_host "octocat" (world_at 2000)
  = (Return octocat, after (CacheManager.get "users/octocat" None) (world_at 2000)) /\
  result (DataService.getUser sample_host "ghost") (world_at 2000)
  = Throw {| APIError.message := "Not Found: The requested resource does not exist";
             APIError.statusCode := Some 404%Z;
             APIError.response := Some (JObj [("message", JStr "Not Found")]) |}.
Proof.
  split.
  - destruct (dataService_cache_then_fetch sample_host "rocq" "stars" "rocq-prover" "rocq"
                "octocat" (Int 30)) as (_ & _ & Huser & _).
    destruct (Huser (world_at 2000)) as (Hhit & _).
    apply Hhit; vm_compute; reflexivity.
  - destruct (dataService_cache_then_fetch sample_host "rocq" "stars" "rocq-prover" "rocq"
                "ghost" (Int 30)) as (_ & _ & Huser & _).
    destruct (Huser (world_at 2000)) as (_ & _ & Hmiss).
    destruct (Hmiss JNull) as (_ & Hfail & _); [vm_compute; reflexivity..|].
    destruct (Hfail {| APIError.message := "Not Found: The requested resource does not exist";
                       APIError.statusCode := Some 404%Z;
                       APIError.response := Some (JObj [("message", JStr "Not Found")]) |})
      as (Hop & _); [vm_compute; reflexivity|].
    unfold result. rewrite Hop. reflexivity.
Defined.

(** * Further properties of the cache store *)

Lemma clear_run (w : World) :
  result CacheManager.clear w = Return tt /\
  cache (after CacheManager.clear w) = ∅ /\
  now (after CacheManager.clear w) = now w /\
  cacheDuration (after CacheManager.clear w) = cacheDuration w /\
  writes (after CacheManager.clear w) = WriteFile (cacheFile w) ∅ :: writes w /\
  requests (after CacheManager.clear w) = requests w.
Proof.
  unfold result, after, CacheManager.clear, bind, cache_reset, with_cache.
  cbv beta iota zeta. rewrite saveCache_run. cbv beta iota zeta.
  unfold emit, writes, requests. cbn. destruct (disk_ok w); cbn; auto 10.
Qed.

Lemma stale_entries_empty (w : World) : cache w = ∅ -> stale_entries w = ∅.
Proof. intros Hc. unfold stale_entries. rewrite Hc. apply map_filter_empty. Qed.

Lemma fresh_entries_empty (w : World) : cache w = ∅ -> fresh_entries w = ∅.
Proof. intros Hc. unfold fresh_entries. rewrite Hc. apply map_filter_empty. Qed.

Lemma empty_store_reads (w : World) :
  cache w = ∅ ->
  result CacheManager.getStats w = Return zero_stats /\
  forall (endpoint : string) (params : option Params),
    CacheManager.get endpoint params w = (Return JNull, w).
Proof.
  intros Hc. split.
  - unfold result. rewrite getStats_run. cbn [fst].
    rewrite (stale_entries_empty w Hc), (fresh_entries_empty w Hc), Hc.
    rewrite !map_size_empty. reflexivity.
  - intros endpoint params. rewrite get_run, Hc, lookup_empty. reflexivity.
Qed.

(** X1. [clear] never throws, empties the map and writes the empty map to
    the file, once; right after it the statistics are all zero and every
    [get] returns [null]. *)
Theorem clear_empties_store (w : World) :
  result CacheManager.clear w = Return tt /\
  cache (after CacheManager.clear w) = ∅ /\
  writes (after CacheManager.clear w) = WriteFile (cacheFile w) ∅ :: writes w /\
  result (CacheManager.clear >> CacheManager.getStats) w = Return zero_stats /\
  forall (endpoint : string) (params : option Params),
    result (CacheManager.clear >> CacheManager.get endpoint params) w = Return JNull.
Proof.
  destruct (clear_run w) as (Hres & Hcache & _ & _ & Hwrites & _).
  destruct (empty_store_reads _ Hcache) as [Hstats Hget].
  assert (Hclear : CacheManager.clear w = (Return tt, after CacheManager.clear w)).
  { unfold result, after in *. destruct (CacheManager.clear w) as [o w'].
    cbn in *. congruence. }
  repeat split; try assumption.
  - unfold result at 1, bind. rewrite Hclear. exact Hstats.
  - intros endpoint params. unfold result, bind. rewrite Hclear, Hget. reflexivity.
Qed.

Lemma set_world (endpoint : string) (payload : JValue) (params : option Params) (w : World) :
  now (after (CacheManager.set endpoint payload params) w) = now w /\
  cacheDuration (after (CacheManager.set endpoint payload params) w) = cacheDuration w /\
  cacheFile (after (CacheManager.set endpoint payload params) w) = cacheFile w /\
  requests (after (CacheManager.set endpoint payload params) w) = requests w.
Proof.
  unfold after. rewrite set_run, saveCache_run.
  unfold requests, cache_assign, with_cache. cbn.
  destruct (disk_ok w); cbn; auto.
Qed.

(** X2. [set] returns normally whether or not the file can be written.  It
    attempts exactly one write, of the map as updated; a failed write is
    reported on the console and nothing is rolled back: the entry is in the
    map either way. *)
Theorem set_survives_failed_write
    (w : World) (endpoint : string) (payload : JValue) (params : option Params) :
  let key := CacheManager.generateKey endpoint params in
  let w' := after (CacheManager.set endpoint payload params) w in
  result (CacheManager.set endpoint payload params) w = Return tt /\
  cache w' !! key = Some {| data := payload; timestamp := now w |} /\
  trace w' =
    ((if disk_ok w then [] else [ConsoleError "Failed to save cache:"])
     ++ WriteFile (cacheFile w) (cache w') :: trace w)%list.
Proof.
  cbv zeta. unfold result, after. rewrite set_run, saveCache_run.
  cbn [fst snd cache trace cacheFile disk_ok cache_assign with_cache after].
  split; [reflexivity|]. split; [apply lookup_insert_eq|reflexivity].
Qed.

(** X3. Writing under one key leaves every other key alone: a [get] whose
    derived key differs from the one written returns, after the [set], what
    it returned before. *)
Theorem set_leaves_other_keys
    (w : World) (endpoint endpoint' : string) (params params' : option Params)
    (payload : JValue) :
  CacheManager.generateKey endpoint' params' <> CacheManager.generateKey endpoint params ->
  result (CacheManager.set endpoint payload params >> CacheManager.get endpoint' params') w
  = result (CacheManager.get endpoint' params') w.
Proof.
  intros Hne. unfold result, bind.
  rewrite (proj1 (set_after endpoint payload params w)).
  rewrite !get_run, set_cache.
  rewrite lookup_insert_ne by congruence.
  destruct (set_world endpoint payload params w) as (Hnow & Hdur & _).
  destruct (cache w !! CacheManager.generateKey endpoint' params') as [entry|];
    [|reflexivity].
  assert (Hfresh : bool_decide (fresh (after (CacheManager.set endpoint payload params) w) entry)
                   = bool_decide (fresh w entry)).
  { apply bool_decide_ext. unfold fresh, age. rewrite Hnow, Hdur. reflexivity. }
  rewrite Hfresh. destruct (bool_decide (fresh w entry)); reflexivity.
Qed.

Lemma set_leaves_other_keys_witness :
  result (CacheManager.set "users/torvalds" (JStr "x") None >>
          CacheManager.get "users/octocat" None) (world_at 2000)
  = Return octocat.
Proof.
  rewrite (set_leaves_other_keys (world_at 2000) "users/torvalds" "users/octocat"
             None None (JStr "x")).
  - vm_compute. reflexivity.
  - vm_compute. discriminate.
Defined.

(** X4. [set] adds one entry to the total that [getStats] reports when the
    key is new, and leaves the total as it was when it overwrites. *)
Theorem set_total_entries
    (w : World) (endpoint : string) (payload : JValue) (params : option Params) :
  exists before after_set : CacheManager.Stats,
    result CacheManager.getStats w = Return before /\
    result (CacheManager.set endpoint payload params >> CacheManager.getStats) w
    = Return after_set /\
    CacheManager.totalEntries after_set =
    (CacheManager.totalEntries before
     + match cache w !! CacheManager.generateKey endpoint params with
       | Some _ => 0
       | None => 1
       end)%Z.
Proof.
  eexists. eexists. unfold result, bind.
  rewrite (proj1 (set_after endpoint payload params w)). rewrite !getStats_run.
  cbn [fst CacheManager.totalEntries]. split; [reflexivity|]. split; [reflexivity|].
  rewrite set_cache.
  destruct (cache w !! CacheManager.generateKey endpoint params) as [old|] eqn:Hlook.
  - rewrite map_size_insert_Some by eauto. cbn [CacheManager.totalEntries]. lia.
  - rewrite map_size_insert_None by exact Hlook. cbn [CacheManager.totalEntries]. lia.
Qed.

(** X5. An entry read back TTL milliseconds or more after it was written is
    not served: [get] returns [null], and the entry is still in the map as
    written. *)
Theorem set_then_get_expired
    (w : World) (endpoint : string) (params : option Params) (payload : JValue) (ms : Z) :
  (cacheDuration w <= ms)%Z ->
  let run := CacheManager.set endpoint payload params >>
             elapse ms >>
             CacheManager.get endpoint params in
  result run w = Return JNull /\
  cache (after run w) !! CacheManager.generateKey endpoint params
  = Some {| data := payload; timestamp := now w |}.
Proof.
  intros Hms. cbv zeta.
  set (w1 := after (CacheManager.set endpoint payload params) w).
  set (w2 := after (elapse ms) w1).
  assert (Hrun : (CacheManager.set endpoint payload params >>
                  elapse ms >>
                  CacheManager.get endpoint params) w
                 = CacheManager.get endpoint params w2).
  { unfold bind. rewrite (proj1 (set_after endpoint payload params w)). reflexivity. }
  destruct (set_world endpoint payload params w) as (Hnow & Hdur & _).
  assert (Hlook : cache w2 !! CacheManager.generateKey endpoint params
                  = Some {| data := payload; timestamp := now w |}).
  { change (cache w2) with (cache w1). unfold w1. rewrite set_cache.
    apply lookup_insert_eq. }
  assert (Hstale : ~ fresh w2 {| data := payload; timestamp := now w |}).
  { unfold fresh, age.
    change (now w2) with (now w1 + ms)%Z. change (cacheDuration w2) with (cacheDuration w1).
    unfold w1. rewrite Hnow, Hdur. cbn [timestamp]. lia. }
  unfold result, after. rewrite Hrun, get_run, Hlook.
  rewrite (bool_decide_eq_false_2 _ Hstale). cbn [fst snd]. split; [reflexivity|exact Hlook].
Qed.

Lemma set_then_get_expired_witness :
  result (CacheManager.set "users/octocat" (JStr "new") None >>
          elapse 300000 >>
          CacheManager.get "users/octocat" None) (world_at 5000)
  = Return JNull.
Proof.
  apply (set_then_get_expired (world_at 5000) "users/octocat" None (JStr "new") 300000).
  simpl. lia.
Defined.

(** X6. A second [cleanup] right after a first one finds nothing to remove:
    it changes nothing and writes nothing. *)
Theorem cleanup_twice (w : World) :
  (CacheManager.cleanup >> CacheManager.cleanup) w
  = (Return tt, after CacheManager.cleanup w).
Proof.
  destruct (cleanup_after w) as (Hres & Hcache & Hnow & Hdur & _).
  assert (Hfirst : CacheManager.cleanup w = (Return tt, after CacheManager.cleanup w)).
  { unfold result, after in *. destruct (CacheManager.cleanup w) as [o w'].
    cbn in *. congruence. }
  unfold bind. rewrite Hfirst.
  destruct (fresh_entries_idem w _ Hcache Hnow Hdur) as [_ Hstale].
  rewrite cleanup_run. rewrite decide_True by exact Hstale. reflexivity.
Qed.

(** X7. [cleanup] is invisible to readers: at the same instant, [get]
    returns after a [cleanup] what it would have returned without it. *)
Theorem cleanup_invisible_to_get
    (w : World) (endpoint : string) (params : option Params) :
  result (CacheManager.cleanup >> CacheManager.get endpoint params) w
  = result (CacheManager.get endpoint params) w.
Proof.
  destruct (cleanup_after w) as (Hres & Hcache & Hnow & Hdur & _).
  assert (Hfirst : CacheManager.cleanup w = (Return tt, after CacheManager.cleanup w)).
  { unfold result, after in *. destruct (CacheManager.cleanup w) as [o w'].
    cbn in *. congruence. }
  unfold result, bind. rewrite Hfirst, !get_run, Hcache.
  destruct (cache w !! CacheManager.generateKey endpoint params) as [entry|] eqn:Hlook.
  - destruct (decide (fresh w entry)) as [Hf|Hf].
    + rewrite (proj2 (fresh_entries_lookup w _ entry) (conj Hlook Hf)).
      rewrite (bool_decide_eq_true_2 _ Hf).
      rewrite bool_decide_eq_true_2; [reflexivity|].
      unfold fresh, age in *. rewrite Hnow, Hdur. exact Hf.
    + rewrite (proj2 (fresh_entries_None w _)).
      * rewrite (bool_decide_eq_false_2 _ Hf). reflexivity.
      * intros entry' He'. assert (entry' = entry) by congruence. subst. exact Hf.
  - rewrite (proj2 (fresh_entries_None w _)); [reflexivity|].
    intros entry' He'. congruence.
Qed.

(** * Further properties of the data service's pure operations *)

(** X8. [getRepositoryById] returns the first repository of the list whose
    id is the one asked for, and nothing when no repository has that id, as
    on the empty list. *)
Theorem getRepositoryById_first_match (repositories : list GitHubRepository.t) (id : Z) :
  match DataService.getRepositoryById repositories id with
  | Some repo =>
      GitHubRepository.id repo = id /\
      exists before rest : list GitHubRepository.t,
        repositories = (before ++ repo :: rest)%list /\
        forall r, r ∈ before -> GitHubRepository.id r <> id
  | None => forall r, r ∈ repositories -> GitHubRepository.id r <> id
  end.
Proof.
  unfold DataService.getRepositoryById.
  induction repositories as [|r0 l IH]; cbn [List.find].
  - intros r Hr. apply elem_of_nil in Hr. contradiction.
  - destruct (Z.eqb_spec (GitHubRepository.id r0) id) as [Heq|Hne].
    + split; [exact Heq|]. exists [], l. split; [reflexivity|].
      intros r Hr. apply elem_of_nil in Hr. contradiction.
    + destruct (List.find (fun repo => (GitHubRepository.id repo =? id)%Z) l) as [repo|].
      * destruct IH as (Hid & before & rest & -> & Hbefore).
        split; [exact Hid|]. exists (r0 :: before), rest. split; [reflexivity|].
        intros r Hr. apply elem_of_cons in Hr as [->|Hr]; [exact Hne|].
        apply Hbefore. exact Hr.
      * intros r Hr. apply elem_of_cons in Hr as [->|Hr]; [exact Hne|].
        apply IH. exact Hr.
Qed.

Lemma meets_applied_filtered (h : Host) (filters : FilterOptions.t)
    (l : list GitHubRepository.t) :
  List.filter (meets_applied h filters) (List.filter (meets_applied h filters) l)
  = List.filter (meets_applied h filters) l.
Proof.
  rewrite filter_filter_and. apply List.filter_ext. intros repo.
  destruct (meets_applied h filters repo); reflexivity.
Qed.

Lemma filter_sublist_bool {A : Type} (f : A -> bool) (l : list A) :
  sublist (List.filter f l) l.
Proof.
  induction l as [|x l IH]; cbn [List.filter]; [constructor|].
  destruct (f x); [apply sublist_skip|apply sublist_cons]; exact IH.
Qed.

(** X9. Filtering never adds or reorders: the result is a sublist of the
    input.  Filtering again with the same criteria changes nothing, and so
    does filtering with no criterion at all. *)
Theorem filterRepositories_sublist_idempotent
    (h : Host) (repositories : list GitHubRepository.t) (filters : FilterOptions.t) :
  sublist (DataService.filterRepositories h repositories filters) repositories /\
  DataService.filterRepositories h
    (DataService.filterRepositories h repositories filters) filters
  = DataService.filterRepositories h repositories filters /\
  DataService.filterRepositories h repositories
    {| FilterOptions.language := None; FilterOptions.minStars := None;
       FilterOptions.maxStars := None; FilterOptions.archived := None |}
  = repositories.
Proof.
  rewrite !filterRepositories_applied. split; [apply filter_sublist_bool|].
  split; [apply meets_applied_filtered|].
  rewrite (List.filter_ext _ (fun _ => true)) by reflexivity. apply filter_all.
Qed.

(** X10. Criteria combine in any order: filtering by one set of criteria
    and then by another gives the same list as filtering by the second and
    then by the first. *)
Theorem filterRepositories_commute
    (h : Host) (repositories : list GitHubRepository.t) (f1 f2 : FilterOptions.t) :
  DataService.filterRepositories h (DataService.filterRepositories h repositories f1) f2
  = DataService.filterRepositories h (DataService.filterRepositories h repositories f2) f1.
Proof.
  rewrite !filterRepositories_applied, !filter_filter_and.
  apply List.filter_ext. intros repo. apply andb_comm.
Qed.

Lemma filter_none {A : Type} (f : A -> bool) (l : list A) :
  (forall x, f x = false) -> List.filter f l = [].
Proof.
  intros Hf. induction l as [|x l IH]; [reflexivity|].
  cbn [List.filter]. rewrite Hf. exact IH.
Qed.

(** X11. A star bound that is not a number, which is what the command line
    passes on for a bound that does not parse, matches no repository: the
    result is empty.  So is the result when the lower bound is above the
    upper bound. *)
Theorem filterRepositories_empty_range
    (h : Host) (repositories : list GitHubRepository.t) (filters : FilterOptions.t) :
  (FilterOptions.minStars filters = Some NaN \/ FilterOptions.maxStars filters = Some NaN ->
   DataService.filterRepositories h repositories filters = []) /\
  (forall lo hi : Z,
     FilterOptions.minStars filters = Some (Int lo) ->
     FilterOptions.maxStars filters = Some (Int hi) ->
     (hi < lo)%Z ->
     DataService.filterRepositories h repositories filters = []).
Proof.
  rewrite filterRepositories_applied. split.
  - intros Hnan. apply filter_none. intros repo.
    unfold meets_applied, stars_criteria.
    destruct Hnan as [-> | ->].
    + destruct (GitHubRepository.stargazers_count repo); cbn [js_ge];
        rewrite ?andb_false_l, ?andb_false_r; reflexivity.
    + destruct (GitHubRepository.stargazers_count repo); cbn [js_le];
        rewrite ?andb_false_l, ?andb_false_r; reflexivity.
  - intros lo hi Hlo Hhi Hlt. apply filter_none. intros repo.
    unfold meets_applied, stars_criteria. rewrite Hlo, Hhi.
    destruct (GitHubRepository.stargazers_count repo) as [|stars]; cbn [js_ge js_le].
    + rewrite ?andb_false_l, ?andb_false_r. reflexivity.
    + destruct (Z.leb_spec lo stars); destruct (Z.leb_spec stars hi);
        rewrite ?andb_false_l, ?andb_false_r; try reflexivity. lia.
Qed.

Lemma filterRepositories_empty_range_witness :
  DataService.filterRepositories sample_host (repo_with_stars <$> [50; 900]%Z)
    {| FilterOptions.language := None; FilterOptions.minStars := Some NaN;
       FilterOptions.maxStars := None; FilterOptions.archived := None |}
  = [] /\
  DataService.filterRepositories sample_host (repo_with_stars <$> [50; 900]%Z)
    {| FilterOptions.language := None; FilterOptions.minStars := Some (Int 500);
       FilterOptions.maxStars := Some (Int 100); FilterOptions.archived := None |}
  = [].
Proof.
  split.
  - apply (proj1 (filterRepositories_empty_range sample_host _ _)). left. reflexivity.
  - apply (proj2 (filterRepositories_empty_range sample_host _ _) 500%Z 100%Z);
      [reflexivity|reflexivity|lia].
Defined.

(** * Further properties of the API client *)

(** X12. A failure of the transport never carries a status code or a body,
    even when the failure object holds a response: the timeout and the two
    name-resolution codes are looked at first.  The name-resolution codes
    give the cannot-connect message, and a failure without a response gives
    a network error that repeats the underlying message. *)
Theorem handleError_transport (error : AxiosError.t) :
  exists apiError : APIError.t,
    (forall w : World, GitHubAPIClient.handleError error w = (Throw apiError, w)) /\
    (transport_failure error \/ AxiosError.response error = None ->
     APIError.statusCode apiError = None /\ APIError.response apiError = None) /\
    (AxiosError.code error = Some "ENOTFOUND" \/ AxiosError.code error = Some "EAI_AGAIN" ->
     APIError.message apiError =
     "Network error: Unable to connect to GitHub API. Please check your internet connection.") /\
    (~ transport_failure error -> AxiosError.response error = None ->
     APIError.message apiError = "Network error: " +:+ AxiosError.message error).
Proof.
  unfold GitHubAPIClient.handleError.
  destruct (code_is (AxiosError.code error) "ECONNABORTED") eqn:Habort.
  { apply code_is_eq in Habort. eexists. split; [intros w; reflexivity|].
    split; [auto|]. split.
    - intros [Hc|Hc]; rewrite Hc in Habort; inversion Habort.
    - intros Hnot. exfalso. apply Hnot. left. exact Habort. }
  destruct (code_is (AxiosError.code error) "ENOTFOUND"
            || code_is (AxiosError.code error) "EAI_AGAIN") eqn:Hdns.
  { eexists. split; [intros w; reflexivity|]. split; [auto|]. split; [auto|].
    intros Hnot. exfalso. apply Hnot. right.
    apply orb_true_iff in Hdns as [Hc|Hc]; apply code_is_eq in Hc; tauto. }
  assert (Hnot : ~ transport_failure error).
  { apply orb_false_iff in Hdns as [Hd1 Hd2].
    intros [Hc|[Hc|Hc]]; apply code_is_eq in Hc; congruence. }
  destruct (AxiosError.response error) as [response|] eqn:Hresp.
  - eexists. split; [intros w; reflexivity|]. split.
    + intros [Ht|Hn]; [contradiction|discriminate].
    + split; [|intros _ Hn; discriminate].
      intros Hc. exfalso. apply Hnot. right. exact Hc.
  - eexists. split; [intros w; reflexivity|]. split; [auto|]. split.
    + intros Hc. exfalso. apply Hnot. right. exact Hc.
    + intros _ _. reflexivity.
Qed.

Lemma handleError_transport_witness :
  exists apiError : APIError.t,
    GitHubAPIClient.handleError
      {| AxiosError.code := Some "ECONNABORTED";
         AxiosError.message := "timeout of 10000ms exceeded";
         AxiosError.response :=
           Some {| AxiosError.status := 403; AxiosError.data := JNull |} |}
      (world_at 0)
    = (Throw apiError, world_at 0) /\
    APIError.statusCode apiError = None /\ APIError.response apiError = None.
Proof.
  destruct (handleError_transport
              {| AxiosError.code := Some "ECONNABORTED";
                 AxiosError.message := "timeout of 10000ms exceeded";
                 AxiosError.response :=
                   Some {| AxiosError.status := 403; AxiosError.data := JNull |} |})
    as (apiError & Hthrow & Hbare & _).
  exists apiError. split; [apply Hthrow|]. apply Hbare. left. left. reflexivity.
Defined.

(** X13. For a response that came back with a status code, the message
    depends on the code alone for the codes the client knows: 400, 401 and
    422 have their own message, 502 and 503 share the one of 500; any other
    code gives [HTTP Error], the code in decimal and the underlying
    message. *)
Theorem handleError_status_messages
    (error : AxiosError.t) (response : AxiosError.Response) :
  http_failure error response ->
  exists apiError : APIError.t,
    (forall w : World, GitHubAPIClient.handleError error w = (Throw apiError, w)) /\
    (AxiosError.status response = 400%Z ->
     APIError.message apiError = "Bad Request: Invalid parameters provided") /\
    (AxiosError.status response = 401%Z ->
     APIError.message apiError = "Unauthorized: Invalid or missing authentication token") /\
    (AxiosError.status response = 422%Z ->
     APIError.message apiError = "Validation Failed: The request contains invalid fields") /\
    (AxiosError.status response = 502%Z \/ AxiosError.status response = 503%Z ->
     APIError.message apiError = "Server Error: GitHub API is currently unavailable") /\
    (AxiosError.status response ∉ [400; 401; 403; 404; 422; 500; 502; 503]%Z ->
     APIError.message apiError =
     "HTTP Error " +:+ pretty (AxiosError.status response) +:+ ": "
     +:+ AxiosError.message error).
Proof.
  intros [Hnot Hresp]. destruct (code_is_transport error Hnot) as (H1 & H2 & H3).
  unfold GitHubAPIClient.handleError. rewrite H1, H2, H3, Hresp. cbn [orb].
  eexists. split; [intros w; reflexivity|].
  cbn [APIError.message GitHubAPIClient.with_message].
  split; [intros ->; reflexivity|]. split; [intros ->; reflexivity|].
  split; [intros ->; reflexivity|]. split; [intros [-> | ->]; reflexivity|].
  intros Hother.
  repeat match goal with
         | |- context [(?a =? ?b)%Z] =>
             destruct (Z.eqb_spec a b) as [Heq|?];
             [exfalso; apply Hother; rewrite Heq; set_solver|]
         end.
  reflexivity.
Qed.

Lemma handleError_status_messages_witness :
  exists apiError : APIError.t,
    GitHubAPIClient.handleError
      {| AxiosError.code := Some "ERR_BAD_REQUEST";
         AxiosError.message := "Request failed with status code 418";
         AxiosError.response :=
           Some {| AxiosError.status := 418; AxiosError.data := JNull |} |}
      (world_at 0)
    = (Throw apiError, world_at 0) /\
    APIError.message apiError = "HTTP Error 418: Request failed with status code 418".
Proof.
  destruct (handleError_status_messages
              {| AxiosError.code := Some "ERR_BAD_REQUEST";
                 AxiosError.message := "Request failed with status code 418";
                 AxiosError.response :=
                   Some {| AxiosError.status := 418; AxiosError.data := JNull |} |}
              {| AxiosError.status := 418; AxiosError.data := JNull |})
    as (apiError & Hthrow & _ & _ & _ & _ & Hother).
  - split; [|reflexivity]. unfold transport_failure.
    cbn [AxiosError.code]. intros [H|[H|H]]; inversion H.
  - exists apiError. split; [apply Hthrow|].
    rewrite Hother; [vm_compute; reflexivity|].
    cbn [AxiosError.status]. intros Hin.
    repeat (apply elem_of_cons in Hin as [Hin|Hin]; [discriminate Hin|]).
    apply elem_of_nil in Hin. exact Hin.
Defined.

Lemma includes_prefix (s sub : string) :
  String.prefix sub s = true -> includes s sub = true.
Proof. intros Hp. destruct s; cbn [includes]; rewrite Hp; reflexivity. Qed.

Lemma prefix_append (a b : string) : String.prefix a (a +:+ b) = true.
Proof.
  induction a as [|x a IH]; [destruct b; reflexivity|].
  rewrite append_cons. cbn [String.prefix].
  destruct (ascii_dec x x) as [_|Hne]; [exact IH|contradiction].
Qed.

Lemma check_fields_error (h : Host) (data : JValue) (fields : list string)
    (w : World) (e : APIError.t) :
  result (GitHubAPIClient.check_fields h data fields) w = Throw e ->
  exists field : string, field ∈ fields /\ e = missing_field field.
Proof.
  unfold result. induction fields as [|f fields IH]; cbn [GitHubAPIClient.check_fields].
  - discriminate.
  - destruct (negb (GitHubAPIClient.in_operator h f data)).
    + intros [= <-]. exists f. split; [left|reflexivity].
    + intros He. destruct (IH He) as (field & Hin & ->).
      exists field. split; [right; exact Hin|reflexivity].
Qed.

(** X14. Every error the validator throws is a plain error: it has no
    status code and no body, and its message says [Invalid response], which
    is what tells it from a normalised transport or HTTP failure.  When the
    error names a field, the field is one of the required ones. *)
Theorem validateResponse_errors_are_plain
    (h : Host) (data : JValue) (requiredFields : list string) (w : World) (e : APIError.t) :
  result (GitHubAPIClient.validateResponse h data requiredFields) w = Throw e ->
  APIError.statusCode e = None /\
  APIError.response e = None /\
  includes (APIError.message e) "Invalid response" = true /\
  (e = APIError.Error "Invalid response: Expected object but received invalid data" \/
   exists field : string, field ∈ requiredFields /\ e = missing_field field).
Proof.
  unfold result, GitHubAPIClient.validateResponse.
  destruct (negb (truthy data) || negb (typeof_object data)).
  - intros [= <-]. split; [reflexivity|]. split; [reflexivity|].
    split; [vm_compute; reflexivity|]. left. reflexivity.
  - unfold bind.
    destruct (GitHubAPIClient.check_fields h data requiredFields w) as [[[]|e'] w'] eqn:Hc;
      cbn [fst]; [discriminate|].
    intros [= <-].
    destruct (check_fields_error h data requiredFields w e') as (field & Hin & ->).
    { unfold result. rewrite Hc. reflexivity. }
    split; [reflexivity|]. split; [reflexivity|]. split.
    + apply includes_prefix. unfold missing_field, APIError.Error. cbn [APIError.message].
      change ("Invalid response: Missing required field '" +:+ field +:+ "'")
        with ("Invalid response" +:+ (": Missing required field '" +:+ field +:+ "'")).
      apply prefix_append.
    + right. exists field. auto.
Qed.

Lemma validateResponse_errors_are_plain_witness :
  APIError.statusCode (missing_field "html_url") = None /\
  includes (APIError.message (missing_field "html_url")) "Invalid response" = true.
Proof.
  destruct (validateResponse_errors_are_plain sample_host
              (JObj [("login", JStr "octocat"); ("id", JNum (Int 1))])
              ["login"; "id"; "html_url"] (world_at 0) (missing_field "html_url"))
    as (Hs & _ & Hm & _); [vm_compute; reflexivity|].
  split; [exact Hs|exact Hm].
Defined.

Lemma axiosInstance_get_ok (h : Host) (url : string) (query : option Params)
    (w : World) (data : JValue) :
  fst (remote h url query (now w)) = inr data ->
  GitHubAPIClient.axiosInstance_get h url query w = (Return data, sent h url query w).
Proof.
  intros Hr.
  unfold GitHubAPIClient.axiosInstance_get, sent, bind, emit, Date_now, elapse, after.
  cbn [fst snd now]. rewrite Hr. reflexivity.
Qed.

Lemma axiosInstance_get_fail (h : Host) (url : string) (query : option Params)
    (w : World) (error : AxiosError.t) (apiError : APIError.t) :
  fst (remote h url query (now w)) = inl error ->
  (forall w' : World, GitHubAPIClient.handleError error w' = (Throw apiError, w')) ->
  GitHubAPIClient.axiosInstance_get h url query w = (Throw apiError, sent h url query w).
Proof.
  intros Hr Hthrow.
  unfold GitHubAPIClient.axiosInstance_get, sent, bind, emit, Date_now, elapse, after.
  cbn [fst snd now]. rewrite Hr, Hthrow. reflexivity.
Qed.

(** X15. Each of the four client operations makes exactly one GET request,
    to its own URL and with its own query, and touches nothing else: the
    cache and the file stay as they were, whether the operation returns or
    throws. *)
Theorem client_makes_one_request
    (h : Host) (query sort owner repo username : string) (perPage : Num) (w : World) :
  after (GitHubAPIClient.searchRepositories h query sort perPage) w
  = sent h "/search/repositories"
      (Some [("q", JStr query); ("sort", JStr sort); ("order", JStr "desc");
             ("per_page", JNum perPage)]) w /\
  after (GitHubAPIClient.getRepository h owner repo) w
  = sent h ("/repos/" +:+ owner +:+ "/" +:+ repo) None w /\
  after (GitHubAPIClient.getUser h username) w
  = sent h ("/users/" +:+ username) None w /\
  after (GitHubAPIClient.getUserRepositories h username sort perPage) w
  = sent h ("/users/" +:+ username +:+ "/repos")
      (Some [("sort", JStr sort); ("per_page", JNum perPage)]) w /\
  forall (url : string) (q : option Params),
    requests (sent h url q w) = HttpGet url q :: requests w /\
    cache (sent h url q w) = cache w /\
    writes (sent h url q w) = writes w.
Proof.
  unfold after.
  split; [apply searchRepositories_sent|]. split; [apply getRepository_sent|].
  split; [apply getUser_sent|]. split; [apply getUserRepositories_sent|].
  intros url q. destruct (sent_after h url q w) as (Hc & _ & Hw & Hr). auto.
Qed.

(** X16. When the remote end answers a search with a structured body that
    has [items] and [total_count], the client returns the [items] member
    itself if it is an array, and otherwise throws the error that says
    [items] is not an array. *)
Theorem client_searchRepositories_outcome
    (h : Host) (query sort : string) (perPage : Num) (w : World) (data : JValue) :
  fst (remote h "/search/repositories"
         (Some [("q", JStr query); ("sort", JStr sort); ("order", JStr "desc");
                ("per_page", JNum perPage)]) (now w)) = inr data ->
  structured data ->
  GitHubAPIClient.in_operator h "items" data = true ->
  GitHubAPIClient.in_operator h "total_count" data = true ->
  result (GitHubAPIClient.searchRepositories h query sort perPage) w
  = if isArray (member data "items") then Return (member data "items")
    else Throw (APIError.Error "Invalid response: items field is not an array").
Proof.
  intros Hr Hs Hitems Htotal.
  unfold result, GitHubAPIClient.searchRepositories. rewrite rethrow_world.
  2:{ intros e w'. destruct (includes (APIError.message e) "Invalid response"); reflexivity. }
  unfold bind at 1. rewrite (axiosInstance_get_ok h _ _ w data Hr).
  unfold bind. unfold GitHubAPIClient.validateResponse.
  rewrite (proj2 (structured_guard data) Hs). unfold bind.
  rewrite check_fields_present.
  - unfold ret at 1 2. cbv beta iota zeta.
    destruct (isArray (member data "items")); reflexivity.
  - intros f Hf. apply elem_of_cons in Hf as [->|Hf]; [exact Hitems|].
    apply elem_of_cons in Hf as [->|Hf]; [exact Htotal|].
    apply elem_of_nil in Hf. contradiction.
Qed.

Lemma client_searchRepositories_outcome_witness :
  result (GitHubAPIClient.searchRepositories search_host "rocq" "stars" (Int 30)) (world_at 0)
  = Return (JArr [octocat]).
Proof.
  apply (client_searchRepositories_outcome search_host "rocq" "stars" (Int 30) (world_at 0)
           (JObj [("total_count", JNum (Int 1)); ("incomplete_results", JBool false);
                  ("items", JArr [octocat])])).
  - reflexivity.
  - exact I.
  - reflexivity.
  - reflexivity.
Defined.

(** X17. The listing of a user's repositories is checked for one thing
    only: the client returns the body as it is when it is an array, and
    throws the expected-array error for any other body, an object
    included. *)
Theorem client_getUserRepositories_outcome
    (h : Host) (username sort : string) (perPage : Num) (w : World) (data : JValue) :
  fst (remote h ("/users/" +:+ username +:+ "/repos")
         (Some [("sort", JStr sort); ("per_page", JNum perPage)]) (now w)) = inr data ->
  result (GitHubAPIClient.getUserRepositories h username sort perPage) w
  = if isArray data then Return data
    else Throw (APIError.Error "Invalid response: Expected array of repositories").
Proof.
  intros Hr. unfold result, GitHubAPIClient.getUserRepositories.
  rewrite try_catch_rethrow. unfold bind.
  rewrite (axiosInstance_get_ok h _ _ w data Hr).
  destruct (isArray data); reflexivity.
Qed.

Lemma client_getUserRepositories_outcome_witness :
  result (GitHubAPIClient.getUserRepositories search_host "octocat" "updated" (Int 30))
    (world_at 0)
  = Throw (APIError.Error "Invalid response: Expected array of repositories").
Proof.
  apply (client_getUserRepositories_outcome search_host "octocat" "updated" (Int 30)
           (world_at 0)
           (JObj [("total_count", JNum (Int 1)); ("incomplete_results", JBool false);
                  ("items", JArr [octocat])])).
  reflexivity.
Defined.

(** X18. A repository or user body that is a structured object with the
    required fields ([id], [name], [full_name], [owner] for a repository;
    [login], [id], [html_url] for a user) is returned by the client exactly
    as received. *)
Theorem client_detail_returns_body
    (h : Host) (owner repo username : string) (w : World) (data : JValue) :
  structured data ->
  (fst (remote h ("/repos/" +:+ owner +:+ "/" +:+ repo) None (now w)) = inr data ->
   (forall f, f ∈ ["id"; "name"; "full_name"; "owner"] ->
              GitHubAPIClient.in_operator h f data = true) ->
   result (GitHubAPIClient.getRepository h owner repo) w = Return data) /\
  (fst (remote h ("/users/" +:+ username) None (now w)) = inr data ->
   (forall f, f ∈ ["login"; "id"; "html_url"] ->
              GitHubAPIClient.in_operator h f data = true) ->
   result (GitHubAPIClient.getUser h username) w = Return data).
Proof.
  intros Hs. split; intros Hr Hfields; unfold result.
  - unfold GitHubAPIClient.getRepository. rewrite try_catch_rethrow. unfold bind at 1.
    rewrite (axiosInstance_get_ok h _ _ w data Hr).
    unfold GitHubAPIClient.validateResponse.
    rewrite (proj2 (structured_guard data) Hs). unfold bind.
    rewrite check_fields_present by exact Hfields. reflexivity.
  - unfold GitHubAPIClient.getUser. rewrite try_catch_rethrow. unfold bind at 1.
    rewrite (axiosInstance_get_ok h _ _ w data Hr).
    unfold GitHubAPIClient.validateResponse.
    rewrite (proj2 (structured_guard data) Hs). unfold bind.
    rewrite check_fields_present by exact Hfields. reflexivity.
Qed.

Lemma client_detail_returns_body_witness :
  result (GitHubAPIClient.getUser sample_host "octocat") (world_at 0) = Return octocat.
Proof.
  apply (proj2 (client_detail_returns_body sample_host "o" "r" "octocat" (world_at 0)
                  octocat I)).
  - reflexivity.
  - intros f Hf. apply elem_of_cons in Hf as [->|Hf]; [reflexivity|].
    apply elem_of_cons in Hf as [->|Hf]; [reflexivity|].
    apply elem_of_cons in Hf as [->|Hf]; [reflexivity|].
    apply elem_of_nil in Hf. contradiction.
Defined.

(** X19. When the request itself fails, each of the four client operations
    throws the error that [handleError] makes of the failure, and no other:
    the operations' own [catch] blocks pass it on untouched. *)
Theorem client_propagates_failure
    (h : Host) (error : AxiosError.t) :
  exists apiError : APIError.t,
    (forall w : World, GitHubAPIClient.handleError error w = (Throw apiError, w)) /\
    forall (query sort owner repo username : string) (perPage : Num) (w : World),
      (fst (remote h "/search/repositories"
              (Some [("q", JStr query); ("sort", JStr sort); ("order", JStr "desc");
                     ("per_page", JNum perPage)]) (now w)) = inl error ->
       result (GitHubAPIClient.searchRepositories h query sort perPage) w = Throw apiError) /\
      (fst (remote h ("/repos/" +:+ owner +:+ "/" +:+ repo) None (now w)) = inl error ->
       result (GitHubAPIClient.getRepository h owner repo) w = Throw apiError) /\
      (fst (remote h ("/users/" +:+ username) None (now w)) = inl error ->
       result (GitHubAPIClient.getUser h username) w = Throw apiError) /\
      (fst (remote h ("/users/" +:+ username +:+ "/repos")
              (Some [("sort", JStr sort); ("per_page", JNum perPage)]) (now w)) = inl error ->
       result (GitHubAPIClient.getUserRepositories h username sort perPage) w
       = Throw apiError).
Proof.
  destruct (handleError_throws error) as [apiError Hthrow].
  exists apiError. split; [exact Hthrow|].
  intros query sort owner repo username perPage w. unfold result.
  split; [|split; [|split]]; intros Hr.
  - unfold GitHubAPIClient.searchRepositories. rewrite rethrow_world.
    2:{ intros e w'. destruct (includes (APIError.message e) "Invalid response"); reflexivity. }
    unfold bind at 1. rewrite (axiosInstance_get_fail h _ _ w error apiError Hr Hthrow).
    reflexivity.
  - unfold GitHubAPIClient.getRepository. rewrite try_catch_rethrow. unfold bind.
    rewrite (axiosInstance_get_fail h _ _ w error apiError Hr Hthrow). reflexivity.
  - unfold GitHubAPIClient.getUser. rewrite try_catch_rethrow. unfold bind.
    rewrite (axiosInstance_get_fail h _ _ w error apiError Hr Hthrow). reflexivity.
  - unfold GitHubAPIClient.getUserRepositories. rewrite try_catch_rethrow. unfold bind.
    rewrite (axiosInstance_get_fail h _ _ w error apiError Hr Hthrow). reflexivity.
Qed.

Lemma client_propagates_failure_witness :
  result (GitHubAPIClient.getUser sample_host "ghost") (world_at 0)
  = Throw {| APIError.message := "Not Found: The requested resource does not exist";
             APIError.statusCode := Some 404%Z;
             APIError.response := Some (JObj [("message", JStr "Not Found")]) |}.
Proof.
  destruct (client_propagates_failure sample_host
              {| AxiosError.code := Some "ERR_BAD_REQUEST";
                 AxiosError.message := "Request failed with status code 404";
                 AxiosError.response :=
                   Some {| AxiosError.status := 404;
                           AxiosError.data := JObj [("message", JStr "Not Found")] |} |})
    as (apiError & Hthrow & Hops).
  destruct (Hops "rocq" "stars" "rocq-prover" "rocq" "ghost" (Int 30) (world_at 0))
    as (_ & _ & Huser & _).
  rewrite Huser by reflexivity.
  specialize (Hthrow (world_at 0)). vm_compute in Hthrow. congruence.
Defined.

(** * Further properties of the cache keys *)

Lemma length_append (a b : string) :
  String.length (a +:+ b) = String.length a + String.length b.
Proof.
  induction a as [|x a IH]; [reflexivity|].
  rewrite append_cons. cbn [String.length]. rewrite IH. reflexivity.
Qed.

Lemma append_inj_r (a b c : string) : a +:+ c = b +:+ c -> a = b.
Proof.
  revert b. induction a as [|x a IH]; intros [|y b] Heq.
  - reflexivity.
  - apply (f_equal String.length) in Heq. rewrite !length_append in Heq.
    cbn [String.length] in Heq. lia.
  - apply (f_equal String.length) in Heq. rewrite !length_append in Heq.
    cbn [String.length] in Heq. lia.
  - rewrite !append_cons in Heq. injection Heq as -> Heq. f_equal. apply IH. exact Heq.
Qed.

Lemma append_last_inj (a b : string) (x y : ascii) :
  a +:+ String x "" = b +:+ String y "" -> x = y.
Proof.
  revert b. induction a as [|c a IH]; intros [|d b] Heq.
  - injection Heq as ->. reflexivity.
  - rewrite append_cons in Heq. injection Heq as _ Heq. destruct b; discriminate Heq.
  - rewrite append_cons in Heq. injection Heq as _ Heq. destruct a; discriminate Heq.
  - rewrite !append_cons in Heq. injection Heq as _ Heq. apply (IH b). exact Heq.
Qed.

Lemma generateKey_given_last (endpoint : string) (params : Params) :
  exists body : string,
    CacheManager.generateKey endpoint (Some params) = body +:+ String "}" "".
Proof.
  destruct (generateKey_given endpoint params) as [body ->].
  eexists. rewrite <- !append_assoc. reflexivity.
Qed.

(** X20. A key derived without parameters never equals a key derived with
    parameters, whatever the two endpoints are: the first ends with the
    colon and the second with the closing brace of the parameter object. *)
Theorem generateKey_absent_vs_given
    (endpoint endpoint' : string) (params : Params) :
  CacheManager.generateKey endpoint None <> CacheManager.generateKey endpoint' (Some params).
Proof.
  intros Heq. destruct (generateKey_given_last endpoint' params) as [body Hbody].
  rewrite Hbody in Heq.
  change (CacheManager.generateKey endpoint None) with (endpoint +:+ String ":" "") in Heq.
  apply append_last_inj in Heq. discriminate Heq.
Qed.

(** X21. The four read operations of the data service keep to themselves:
    whatever their arguments, no two of them derive the same cache key, so
    none can be served an entry that another one stored. *)
Theorem dataService_keys_disjoint
    (query sort owner repo username username' sort' : string) (perPage perPage' : Num) :
  let search_key :=
    CacheManager.generateKey "search/repositories"
      (Some [("q", JStr query); ("sort", JStr sort); ("per_page", JNum perPage)]) in
  let repo_key := CacheManager.generateKey ("repos/" +:+ owner +:+ "/" +:+ repo) None in
  let user_key := CacheManager.generateKey ("users/" +:+ username) None in
  let user_repos_key :=
    CacheManager.generateKey ("users/" +:+ username' +:+ "/repos")
      (Some [("sort", JStr sort'); ("per_page", JNum perPage')]) in
  search_key <> repo_key /\ search_key <> user_key /\ search_key <> user_repos_key /\
  repo_key <> user_key /\ repo_key <> user_repos_key /\ user_key <> user_repos_key.
Proof.
  cbv zeta. repeat split.
  - intros Heq. symmetry in Heq. exact (generateKey_absent_vs_given _ _ _ Heq).
  - intros Heq. symmetry in Heq. exact (generateKey_absent_vs_given _ _ _ Heq).
  - unfold CacheManager.generateKey. intros Heq. inversion Heq.
  - unfold CacheManager.generateKey. intros Heq. inversion Heq.
  - apply generateKey_absent_vs_given.
  - apply generateKey_absent_vs_given.
Qed.

(** X22. For the two detail operations the cache key follows the URL: two
    repository lookups share a key exactly when they request the same URL,
    and two user lookups share a key exactly when the user names are the
    same. *)
Theorem detail_keys_follow_url (owner repo owner' repo' username username' : string) :
  (CacheManager.generateKey ("repos/" +:+ owner +:+ "/" +:+ repo) None
   = CacheManager.generateKey ("repos/" +:+ owner' +:+ "/" +:+ repo') None
   <-> "/repos/" +:+ owner +:+ "/" +:+ repo = "/repos/" +:+ owner' +:+ "/" +:+ repo') /\
  (CacheManager.generateKey ("users/" +:+ username) None
   = CacheManager.generateKey ("users/" +:+ username') None
   <-> username = username').
Proof.
  split.
  - change (CacheManager.generateKey ("repos/" +:+ owner +:+ "/" +:+ repo) None)
      with (("repos/" +:+ owner +:+ "/" +:+ repo) +:+ ":").
    change (CacheManager.generateKey ("repos/" +:+ owner' +:+ "/" +:+ repo') None)
      with (("repos/" +:+ owner' +:+ "/" +:+ repo') +:+ ":").
    split.
    + intros Heq. apply append_inj_r in Heq. apply String.app_inj in Heq.
      rewrite Heq. reflexivity.
    + intros Heq. apply String.app_inj in Heq. rewrite Heq. reflexivity.
  - change (CacheManager.generateKey ("users/" +:+ username) None)
      with (("users/" +:+ username) +:+ ":").
    change (CacheManager.generateKey ("users/" +:+ username') None)
      with (("users/" +:+ username') +:+ ":").
    split.
    + intros Heq. apply append_inj_r in Heq. apply String.app_inj in Heq. exact Heq.
    + intros ->. reflexivity.
Qed.









(** * Further properties of the data service *)

Lemma get_clock (endpoint : string) (params : option Params) (w : World) :
  now (after (CacheManager.get endpoint params) w) = now w /\
  cacheDuration (after (CacheManager.get endpoint params) w) = cacheDuration w.
Proof.
  unfold after. rewrite get_run.
  destruct (cache w !! CacheManager.generateKey endpoint params) as [entry|]; [|auto].
  destruct (bool_decide (fresh w entry)); auto.
Qed.

Lemma sent_duration (h : Host) (url : string) (query : option Params) (w : World) :
  cacheDuration (sent h url query w) = cacheDuration w.
Proof. reflexivity. Qed.

Section SecondCall.
Variable h : Host.
Variables (endpoint url : string) (params query : option Params) (fetch : M JValue).
Hypothesis fetch_sent : forall w : World, snd (fetch w) = sent h url query w.
Hypothesis fetch_structured :
  forall (w : World) (payload : JValue),
    result fetch w = Return payload -> structured payload.

Lemma cached_read_second_call :
  second_call_hits (cached_read endpoint params fetch) endpoint params.
Proof.
  intros w v payload ms Hv Hfalsy Hres Hms.
  destruct (cached_read_contract h endpoint params fetch url query fetch_sent w)
    as (_ & _ & Hmiss).
  destruct (Hmiss v Hv Hfalsy) as (_ & Hfail & Hok).
  set (w1 := after (CacheManager.get endpoint params) w) in *.
  set (w2 := after fetch w1) in *.
  destruct (result fetch w1) as [d|e] eqn:Hfetch.
  2:{ destruct (Hfail e eq_refl) as (Hop & _). unfold result in Hres.
      rewrite Hop in Hres. discriminate Hres. }
  destruct (Hok d eq_refl) as (Hop & Hcache & _).
  assert (d = payload) as ->.
  { unfold result in Hres. rewrite Hop in Hres. cbn in Hres. congruence. }
  pose proof (fetch_structured w1 payload Hfetch) as Hstruct.
  set (wA := after (CacheManager.set endpoint payload params) w2) in *.
  assert (HwA : after (cached_read endpoint params fetch) w = wA).
  { unfold after at 1. rewrite Hop. reflexivity. }
  rewrite HwA in Hcache.
  destruct (set_world endpoint payload params w2) as (HnowA & HdurA & _).
  fold wA in HnowA, HdurA.
  assert (Hdur : cacheDuration wA = cacheDuration w).
  { rewrite HdurA. change w2 with (snd (fetch w1)).
    rewrite (fetch_sent w1), sent_duration. unfold w1. apply get_clock. }
  set (wB := after (elapse ms) wA).
  assert (Hrun : (cached_read endpoint params fetch >> elapse ms >>
                  cached_read endpoint params fetch) w
                 = cached_read endpoint params fetch wB).
  { unfold bind at 1. rewrite Hop. reflexivity. }
  assert (Hlook : cache wB !! CacheManager.generateKey endpoint params
                  = Some {| data := payload; timestamp := now w2 |}).
  { change (cache wB) with (cache wA). rewrite Hcache. apply lookup_insert_eq. }
  assert (Hfresh : fresh wB {| data := payload; timestamp := now w2 |}).
  { unfold fresh, age. change (now wB) with (now wA + ms)%Z.
    change (cacheDuration wB) with (cacheDuration wA).
    rewrite HnowA, Hdur. cbn [timestamp]. lia. }
  assert (Hagain : cached_read endpoint params fetch wB
                   = (Return payload,
                      after (emit (ConsoleLog ("[CACHE HIT] Using cached data for "
                                               +:+ endpoint))) wB)).
  { unfold cached_read, bind at 1. rewrite get_run, Hlook.
    rewrite (bool_decide_eq_true_2 _ Hfresh). cbn [data].
    rewrite (structured_truthy payload Hstruct). reflexivity. }
  unfold result, after. rewrite Hrun, Hagain, Hop. cbn [fst snd].
  split; reflexivity.
Qed.
End SecondCall.

(** X24. Each of the four read operations is served from the cache the
    second time: after a call that missed and fetched a payload, the same
    call made less than TTL milliseconds later returns the same payload and
    makes no new request. *)
Theorem dataService_second_call_hits
    (h : Host) (query sort owner repo username : string) (perPage : Num) :
  second_call_hits (DataService.searchRepositories h query sort perPage)
    "search/repositories"
    (Some [("q", JStr query); ("sort", JStr sort); ("per_page", JNum perPage)]) /\
  second_call_hits (DataService.getRepository h owner repo)
    ("repos/" +:+ owner +:+ "/" +:+ repo) None /\
  second_call_hits (DataService.getUser h username) ("users/" +:+ username) None /\
  second_call_hits (DataService.getUserRepositories h username sort perPage)
    ("users/" +:+ username +:+ "/repos")
    (Some [("sort", JStr sort); ("per_page", JNum perPage)]).
Proof.
  split; [|split; [|split]].
  - apply (cached_read_second_call h "search/repositories" "/search/repositories"
             (Some [("q", JStr query); ("sort", JStr sort); ("per_page", JNum perPage)])
             (Some [("q", JStr query); ("sort", JStr sort); ("order", JStr "desc");
                    ("per_page", JNum perPage)])
             (GitHubAPIClient.searchRepositories h query sort perPage));
      [apply searchRepositories_sent|].
    intros w' payload.
    apply (client_payload_structured h query sort owner repo username perPage w' payload).
  - apply (cached_read_second_call h ("repos/" +:+ owner +:+ "/" +:+ repo)
             ("/repos/" +:+ owner +:+ "/" +:+ repo) None None
             (GitHubAPIClient.getRepository h owner repo));
      [apply getRepository_sent|].
    intros w' payload.
    apply (client_payload_structured h query sort owner repo username perPage w' payload).
  - apply (cached_read_second_call h ("users/" +:+ username) ("/users/" +:+ username)
             None None (GitHubAPIClient.getUser h username));
      [apply getUser_sent|].
    intros w' payload.
    apply (client_payload_structured h query sort owner repo username perPage w' payload).
  - apply (cached_read_second_call h ("users/" +:+ username +:+ "/repos")
             ("/users/" +:+ username +:+ "/repos")
             (Some [("sort", JStr sort); ("per_page", JNum perPage)])
             (Some [("sort", JStr sort); ("per_page", JNum perPage)])
             (GitHubAPIClient.getUserRepositories h username sort perPage));
      [apply getUserRepositories_sent|].
    intros w' payload.
    apply (client_payload_structured h query sort owner repo username perPage w' payload).
Qed.

Lemma dataService_second_call_hits_witness :
  result (DataService.getUser sample_host "octocat" >>
          elapse 1000 >>
          DataService.getUser sample_host "octocat") fresh_start
  = Return octocat /\
  requests (after (DataService.getUser sample_host "octocat" >>
                   elapse 1000 >>
                   DataService.getUser sample_host "octocat") fresh_start)
  = requests (after (DataService.getUser sample_host "octocat") fresh_start).
Proof.
  destruct (dataService_second_call_hits sample_host "rocq" "stars" "rocq-prover" "rocq"
              "octocat" (Int 30)) as (_ & _ & Huser & _).
  apply (Huser fresh_start JNull octocat 1000%Z).
  - vm_compute. reflexivity.
  - reflexivity.
  - vm_compute. reflexivity.
  - vm_compute. reflexivity.
Defined.

Lemma cached_read_on_empty_store
    (h : Host) (endpoint url : string) (params query : option Params) (fetch : M JValue)
    (w : World) :
  (forall w' : World, snd (fetch w') = sent h url query w') ->
  cache w = ∅ ->
  requests (after (cached_read endpoint params fetch) w) = HttpGet url query :: requests w.
Proof.
  intros Hsent Hempty.
  destruct (cached_read_contract h endpoint params fetch url query Hsent w)
    as (_ & _ & Hmiss).
  destruct (empty_store_reads w Hempty) as [_ Hget].
  assert (Hcached : result (CacheManager.get endpoint params) w = Return JNull).
  { unfold result. rewrite Hget. reflexivity. }
  destruct (Hmiss JNull Hcached eq_refl) as (Hreq & Hfail & Hok).
  destruct (result fetch (after (CacheManager.get endpoint params) w)) as [d|e] eqn:Hfetch.
  - destruct (Hok d eq_refl) as (Hop & _). unfold after at 1. rewrite Hop. cbn [snd].
    rewrite (proj2 (proj2 (proj2 (set_world endpoint d params _)))). exact Hreq.
  - destruct (Hfail e eq_refl) as (Hop & _). unfold after at 1. rewrite Hop. exact Hreq.
Qed.

Lemma clear_then (A : Type) (m : M A) (w : World) :
  (DataService.clearCache >> m) w = m (after CacheManager.clear w).
Proof.
  destruct (clear_run w) as (Hres & _).
  unfold bind, DataService.clearCache. unfold result, after in *.
  destruct (CacheManager.clear w) as [o w']. cbn in *. subst o. reflexivity.
Qed.

Lemma after_clear_then (A : Type) (m : M A) (w : World) :
  after (DataService.clearCache >> m) w = after m (after CacheManager.clear w).
Proof. unfold after at 1 2. rewrite clear_then. reflexivity. Qed.

(** X25. After [clearCache], the next read of any of the four operations
    goes to the network: it makes its one request, whatever the cache held
    before. *)
Theorem clearCache_forces_fetch
    (h : Host) (query sort owner repo username : string) (perPage : Num) (w : World) :
  requests (after (DataService.clearCache >>
                   DataService.searchRepositories h query sort perPage) w)
  = HttpGet "/search/repositories"
      (Some [("q", JStr query); ("sort", JStr sort); ("order", JStr "desc");
             ("per_page", JNum perPage)]) :: requests w /\
  requests (after (DataService.clearCache >> DataService.getRepository h owner repo) w)
  = HttpGet ("/repos/" +:+ owner +:+ "/" +:+ repo) None :: requests w /\
  requests (after (DataService.clearCache >> DataService.getUser h username) w)
  = HttpGet ("/users/" +:+ username) None :: requests w /\
  requests (after (DataService.clearCache >>
                   DataService.getUserRepositories h username sort perPage) w)
  = HttpGet ("/users/" +:+ username +:+ "/repos")
      (Some [("sort", JStr sort); ("per_page", JNum perPage)]) :: requests w.
Proof.
  destruct (clear_run w) as (_ & Hempty & _ & _ & _ & Hreq).
  rewrite !after_clear_then. rewrite <- Hreq.
  split; [|split; [|split]].
  - apply (cached_read_on_empty_store h "search/repositories" "/search/repositories"
             (Some [("q", JStr query); ("sort", JStr sort); ("per_page", JNum perPage)])
             (Some [("q", JStr query); ("sort", JStr sort); ("order", JStr "desc");
                    ("per_page", JNum perPage)])
             (GitHubAPIClient.searchRepositories h query sort perPage));
      [apply searchRepositories_sent|exact Hempty].
  - apply (cached_read_on_empty_store h ("repos/" +:+ owner +:+ "/" +:+ repo)
             ("/repos/" +:+ owner +:+ "/" +:+ repo) None None
             (GitHubAPIClient.getRepository h owner repo));
      [apply getRepository_sent|exact Hempty].
  - apply (cached_read_on_empty_store h ("users/" +:+ username) ("/users/" +:+ username)
             None None (GitHubAPIClient.getUser h username));
      [apply getUser_sent|exact Hempty].
  - apply (cached_read_on_empty_store h ("users/" +:+ username +:+ "/repos")
             ("/users/" +:+ username +:+ "/repos")
             (Some [("sort", JStr sort); ("per_page", JNum perPage)])
             (Some [("sort", JStr sort); ("per_page", JNum perPage)])
             (GitHubAPIClient.getUserRepositories h username sort perPage));
      [apply getUserRepositories_sent|exact Hempty].
Qed.

(** X26. Building the manager never throws.  When the cache file is missing
    or cannot be read or parsed, the manager starts with an empty cache:
    the statistics are all zero, every [get] returns [null] and nothing is
    written; only the unreadable file leaves a warning on the console.  The
    window is five minutes unless one is given. *)
Theorem constructor_without_file
    (file : CacheManager.CacheFile) (path : option string) (duration : option Z)
    (t : Z) (writable : bool) :
  file = CacheManager.FileMissing \/ file = CacheManager.FileUnreadable ->
  let w := CacheManager.constructor file path duration t writable in
  cache w = ∅ /\
  writes w = [] /\
  result CacheManager.getStats w = Return zero_stats /\
  (forall (endpoint : string) (params : option Params),
     result (CacheManager.get endpoint params) w = Return JNull) /\
  cacheDuration w = default 300000%Z duration /\
  trace w = match file with
            | CacheManager.FileUnreadable =>
                [ConsoleWarn "Failed to load cache, starting with empty cache"]
            | _ => []
            end.
Proof.
  intros Hfile. cbv zeta.
  assert (Hempty : cache (CacheManager.constructor file path duration t writable) = ∅).
  { destruct Hfile as [-> | ->]; reflexivity. }
  destruct (empty_store_reads _ Hempty) as [Hstats Hget].
  split; [exact Hempty|]. split; [destruct Hfile as [-> | ->]; reflexivity|].
  split; [exact Hstats|]. split.
  - intros endpoint params. unfold result. rewrite Hget. reflexivity.
  - split; destruct Hfile as [-> | ->]; reflexivity.
Qed.

Lemma constructor_without_file_witness :
  result CacheManager.getStats fresh_start = Return zero_stats /\
  cacheDuration fresh_start = 300000%Z.
Proof.
  destruct (constructor_without_file CacheManager.FileMissing None None 0 true)
    as (_ & _ & Hstats & _ & Hdur & _); [left; reflexivity|].
  split; [exact Hstats|exact Hdur].
Defined.
